(** * UserService: a shallow embedding of the user identity and presence service

    The service is a NestJS provider whose methods talk to a MongoDB
    collection of users, a collection of sessions, four civic reference
    services, an HTTP geo-IP endpoint and the Firebase admin SDK.  The
    embedding keeps the two collections and a chronological log of every
    call to a collaborator, and of every rejection left without a handler,
    in an explicit [World]; each [async] method becomes a computation in the
    state-and-exception monad [M]. *)

From Stdlib Require Import String List ZArith Bool Lia.
Import ListNotations.
Open Scope string_scope.

Set Warnings "-register-all".

(** ** JavaScript values held by optional string properties *)

(** [JUndefined] is also how an absent document field reads. *)
Inductive JsVal : Type :=
| JUndefined
| JNull
| JStr (s : string).

Definition JsVal_eqb (a b : JsVal) : bool :=
  match a, b with
  | JUndefined, JUndefined => true
  | JNull, JNull => true
  | JStr s, JStr t => String.eqb s t
  | _, _ => false
  end.

(** JavaScript truthiness: [if (v)]. *)
Definition truthy (v : JsVal) : bool :=
  match v with
  | JStr s => negb (String.eqb s "")
  | _ => false
  end.

(** Interpolation in a template literal. *)
Definition template (v : JsVal) : string :=
  match v with
  | JUndefined => "undefined"
  | JNull => "null"
  | JStr s => s
  end.

(** Loose equality [v == s] against a string literal or string value. *)
Definition loose_eq_str (v : JsVal) (s : string) : bool :=
  match v with
  | JStr t => String.eqb t s
  | _ => false
  end.

(** Loose equality [a == b] between two optional strings. *)
Definition loose_eq (a b : JsVal) : bool :=
  match a, b with
  | JStr s, JStr t => String.eqb s t
  | JStr _, _ | _, JStr _ => false
  | _, _ => true
  end.

(** ** Documents *)

Definition ObjectId := nat.

Inductive Platform : Type := app | web | webmobile.

Record ActiveSocket : Type := mkActiveSocket {
  socketid : string;
  platform : Platform;
  date : Z
}.

(** [platformOnline]: one optional counter per platform key. *)
Record PlatformOnline : Type := mkPlatformOnline {
  online_app : option Z;
  online_web : option Z;
  online_webmobile : option Z
}.

Definition noPlatformOnline : PlatformOnline := mkPlatformOnline None None None.

Definition online (po : PlatformOnline) (p : Platform) : option Z :=
  match p with
  | app => online_app po
  | web => online_web po
  | webmobile => online_webmobile po
  end.

(** [$inc: { 'platformOnline.<p>': 1 }]: an absent counter counts as 0. *)
Definition inc_online (po : PlatformOnline) (p : Platform) : PlatformOnline :=
  let bump o := Some (match o with Some n => n + 1 | None => 1 end)%Z in
  match p with
  | app => mkPlatformOnline (bump (online_app po)) (online_web po) (online_webmobile po)
  | web => mkPlatformOnline (online_app po) (bump (online_web po)) (online_webmobile po)
  | webmobile => mkPlatformOnline (online_app po) (online_web po) (bump (online_webmobile po))
  end.

Record Location : Type := mkLocation {
  loc_state : option ObjectId;
  loc_district : option ObjectId;
  loc_assemblyConstituency : option ObjectId;
  loc_parliamentaryConstituency : option ObjectId
}.

Module User.
Record t : Type := mk {
  _id : ObjectId;
  firebaseId : JsVal;
  phone : JsVal;
  email : JsVal;
  voterId : JsVal;
  emailVerified : option bool;
  phoneVerified : option bool;
  location : option Location;
  dateOfBirth : JsVal;
  gender : JsVal;
  activeSockets : list ActiveSocket;
  platformOnline : PlatformOnline;
  ipGeo : JsVal;
  lastIp : JsVal
}.
End User.

(** [Partial<UserDocument>] as the service receives it for creation, and the
    plain (all-[$set]) [UpdateQuery] it receives for updates.  The store
    assigns [_id] on insert, so the payload carries none. *)
Module Data.
Record t : Type := mk {
  firebaseId : JsVal;
  phone : JsVal;
  email : JsVal;
  voterId : JsVal;
  emailVerified : option bool;
  phoneVerified : option bool;
  location : option Location;
  dateOfBirth : JsVal;
  gender : JsVal;
  activeSockets : option (list ActiveSocket);
  ipGeo : JsVal;
  lastIp : JsVal
}.

Definition empty : t :=
  mk JUndefined JUndefined JUndefined JUndefined None None None
     JUndefined JUndefined None JUndefined JUndefined.

Definition set_activeSockets (l : list ActiveSocket) (d : t) : t :=
  mk (firebaseId d) (phone d) (email d) (voterId d) (emailVerified d)
     (phoneVerified d) (location d) (dateOfBirth d) (gender d) (Some l)
     (ipGeo d) (lastIp d).

Definition set_emailVerified (b : bool) (d : t) : t :=
  mk (firebaseId d) (phone d) (email d) (voterId d) (Some b)
     (phoneVerified d) (location d) (dateOfBirth d) (gender d)
     (activeSockets d) (ipGeo d) (lastIp d).

Definition set_phoneVerified (b : bool) (d : t) : t :=
  mk (firebaseId d) (phone d) (email d) (voterId d) (emailVerified d)
     (Some b) (location d) (dateOfBirth d) (gender d)
     (activeSockets d) (ipGeo d) (lastIp d).
End Data.

(** [CheckCredentialsDto]. *)
Module Dto.
Record t : Type := mk {
  phone : JsVal;
  email : JsVal;
  voterId : JsVal;
  firebaseId : JsVal;
  _id : option ObjectId
}.
End Dto.

(** [create] hands its [data] object to [checkCredentials]. *)
Definition credentials_of (d : Data.t) : Dto.t :=
  Dto.mk (Data.phone d) (Data.email d) (Data.voterId d) (Data.firebaseId d) None.

Record UserSession : Type := mkUserSession {
  us_user : string;
  us_socketid : string;
  us_platform : Platform;
  us_date : Z;
  us_state : option ObjectId
}.

(** ** Filters and updates of the document store *)

Inductive Path : Type := PfirebaseId | Pphone | Pemail | PvoterId.

Definition get (p : Path) (u : User.t) : JsVal :=
  match p with
  | PfirebaseId => User.firebaseId u
  | Pphone => User.phone u
  | Pemail => User.email u
  | PvoterId => User.voterId u
  end.

(** [FilterQuery<UserDocument>], restricted to the operators the service
    builds. *)
Inductive Filter : Type :=
| FEq (p : Path) (v : JsVal)        (* { p: v } *)
| FNe (p : Path) (v : JsVal)        (* { p: { $ne: v } } *)
| FIdEq (i : ObjectId)              (* { _id: i } *)
| FIdNe (i : ObjectId)              (* { _id: { $ne: i } } *)
| FSocketId (s : string)            (* { 'activeSockets.socketid': s } *)
| FAnd (l : list Filter)            (* { $and: l } *)
| FOr (l : list Filter).            (* { $or: l } *)

(** Equality match of a queried value against a stored one.  The driver
    serialises [undefined] as [null], and [null] matches a field that is
    [null] or missing. *)
Definition eq_match (queried stored : JsVal) : bool :=
  match queried with
  | JStr s => match stored with JStr t => String.eqb s t | _ => false end
  | JNull | JUndefined => match stored with JStr _ => false | _ => true end
  end.

Definition holds_socket (s : string) (u : User.t) : bool :=
  existsb (fun a => String.eqb (socketid a) s) (User.activeSockets u).

Fixpoint matches (q : Filter) (u : User.t) {struct q} : bool :=
  match q with
  | FEq p v => eq_match v (get p u)
  | FNe p v => negb (eq_match v (get p u))
  | FIdEq i => Nat.eqb (User._id u) i
  | FIdNe i => negb (Nat.eqb (User._id u) i)
  | FSocketId s => holds_socket s u
  | FAnd l => forallb (fun q' => matches q' u) l
  | FOr l => existsb (fun q' => matches q' u) l
  end.

(** The property read [query.firebaseId] on a filter object. *)
Definition query_firebaseId (q : Filter) : JsVal :=
  match q with
  | FEq PfirebaseId v => v
  | _ => JUndefined
  end.

Inductive Update : Type :=
| USet (d : Data.t)                          (* plain object: $set of its keys *)
| UPushInc (a : ActiveSocket) (p : Platform) (* $push activeSockets, $inc platformOnline.p *)
| UPullSocket (s : string).                  (* $pull activeSockets { socketid: s } *)

Definition or_keep (new old : JsVal) : JsVal :=
  match new with JUndefined => old | _ => new end.

Definition opt_or_keep {A} (new : option A) (old : option A) : option A :=
  match new with Some _ => new | None => old end.

Definition apply_set (d : Data.t) (u : User.t) : User.t :=
  User.mk (User._id u)
    (or_keep (Data.firebaseId d) (User.firebaseId u))
    (or_keep (Data.phone d) (User.phone u))
    (or_keep (Data.email d) (User.email u))
    (or_keep (Data.voterId d) (User.voterId u))
    (opt_or_keep (Data.emailVerified d) (User.emailVerified u))
    (opt_or_keep (Data.phoneVerified d) (User.phoneVerified u))
    (opt_or_keep (Data.location d) (User.location u))
    (or_keep (Data.dateOfBirth d) (User.dateOfBirth u))
    (or_keep (Data.gender d) (User.gender u))
    (match Data.activeSockets d with Some l => l | None => User.activeSockets u end)
    (User.platformOnline u)
    (or_keep (Data.ipGeo d) (User.ipGeo u))
    (or_keep (Data.lastIp d) (User.lastIp u)).

Definition set_sockets (l : list ActiveSocket) (po : PlatformOnline) (u : User.t) : User.t :=
  User.mk (User._id u) (User.firebaseId u) (User.phone u) (User.email u)
    (User.voterId u) (User.emailVerified u) (User.phoneVerified u)
    (User.location u) (User.dateOfBirth u) (User.gender u)
    l po (User.ipGeo u) (User.lastIp u).

Definition pull_socket (s : string) (l : list ActiveSocket) : list ActiveSocket :=
  filter (fun a => negb (String.eqb (socketid a) s)) l.

Definition apply_update (upd : Update) (u : User.t) : User.t :=
  match upd with
  | USet d => apply_set d u
  | UPushInc a p =>
      set_sockets (User.activeSockets u ++ [a]) (inc_online (User.platformOnline u) p) u
  | UPullSocket s =>
      set_sockets (pull_socket s (User.activeSockets u)) (User.platformOnline u) u
  end.

(** [updateOne]: the first document in store order that matches is
    rewritten; no match changes nothing. *)
Fixpoint update_first (q : Filter) (upd : Update) (us : list User.t) : list User.t :=
  match us with
  | [] => []
  | u :: rest =>
      if matches q u then apply_update upd u :: rest
      else u :: update_first q upd rest
  end.

(** The document [Model.create] builds from a payload. *)
Definition new_user (i : ObjectId) (d : Data.t) : User.t :=
  User.mk i (Data.firebaseId d) (Data.phone d) (Data.email d) (Data.voterId d)
    (Data.emailVerified d) (Data.phoneVerified d) (Data.location d)
    (Data.dateOfBirth d) (Data.gender d)
    (match Data.activeSockets d with Some l => l | None => [] end)
    noPlatformOnline (Data.ipGeo d) (Data.lastIp d).

(** ** Collaborators *)

(** What the geo-IP endpoint answers. *)
Record Geo : Type := mkGeo {
  country : JsVal;
  region : JsVal;
  city : JsVal
}.

Record AssemblyConstituency : Type := mkAssemblyConstituency {
  ac_id : ObjectId;
  ac_name : string;
  ac_parliamentaryConstituency : option ObjectId;
  ac_district : option ObjectId
}.

Record ParliamentaryConstituency : Type := mkParliamentaryConstituency {
  pc_id : ObjectId;
  pc_name : string
}.

Record District : Type := mkDistrict {
  d_id : ObjectId;
  d_name : string;
  d_state : option ObjectId
}.

Record State : Type := mkState {
  s_id : ObjectId;
  s_name : string
}.

Record GeoByIpDto : Type := mkGeoByIpDto {
  assemblyConstituency : option AssemblyConstituency;
  parliamentaryConstituency : option ParliamentaryConstituency;
  district : option District;
  state : option State
}.

(** The object literal [{}]. *)
Definition emptyLocation : GeoByIpDto := mkGeoByIpDto None None None None.

(** The identity provider's user record, as far as the service reads it. *)
Record UserRecord : Type := mkUserRecord {
  fb_email : JsVal;
  fb_emailVerified : bool;
  fb_phoneNumber : JsVal
}.

Record Claims : Type := mkClaims {
  claim_location : option Location;
  claim_dateOfBirth : JsVal;
  claim_gender : JsVal
}.

(** The injected services.  A request that rejects answers [None] (or
    [false] where nothing is returned); the civic services answer
    [record | null]. *)
Record Services : Type := mkServices {
  httpGet : string -> option Geo;
  assemblyFindOne : JsVal -> option AssemblyConstituency;
  parliamentaryFindOne : option ObjectId -> option ParliamentaryConstituency;
  districtFindOne : option ObjectId -> option District;
  stateFindOne : option ObjectId -> option State;
  getUser : JsVal -> option UserRecord;
  setCustomUserClaims : JsVal -> Claims -> bool
}.

(** ** The world and the monad of asynchronous methods *)

Inductive Err : Type :=
| BadRequestException (msg : string)
| ForbiddenException (msg : string)
| TypeError
| HttpError
| FirebaseError.

Inductive Event : Type :=
| EHttpGet (url : string)
| EUserExists (q : Filter)
| EUserCreate (d : Data.t)
| EUserUpdateOne (q : Filter) (upd : Update)
| EUserFindOneAndUpdate (q : Filter) (upd : Update)
| EUserFindOne (q : Filter)
| ESessionCreate (s : UserSession)
| EAssemblyFindOne (regex : JsVal)
| EParliamentaryFindOne (i : option ObjectId)
| EDistrictFindOne (i : option ObjectId)
| EStateFindOne (i : option ObjectId)
| EGetUser (uid : JsVal)
| ESetCustomUserClaims (uid : JsVal) (c : Claims)
| EUnhandledRejection (e : Err).       (* a promise rejected with no handler *)

(** A query against one of the four civic-hierarchy stores. *)
Definition is_civic (e : Event) : bool :=
  match e with
  | EAssemblyFindOne _ | EParliamentaryFindOne _
  | EDistrictFindOne _ | EStateFindOne _ => true
  | _ => false
  end.

Record World : Type := mkWorld {
  users : list User.t;
  sessions : list UserSession;
  nextId : ObjectId;
  trace : list Event
}.

Inductive Result (A : Type) : Type :=
| Ok (a : A)
| Throw (e : Err).
Arguments Ok {A} a.
Arguments Throw {A} e.

Definition M (A : Type) : Type := World -> World * Result A.

Definition ret {A} (a : A) : M A := fun w => (w, Ok a).

Definition throw {A} (e : Err) : M A := fun w => (w, Throw e).

Definition bind {A B} (c : M A) (k : A -> M B) : M B :=
  fun w =>
    match c w with
    | (w', Ok a) => k a w'
    | (w', Throw e) => (w', Throw e)
    end.

Notation "x <- c ;; k" := (bind c (fun x => k))
  (at level 61, c at next level, right associativity).
Notation "c ;;; k" := (bind c (fun _ => k))
  (at level 61, right associativity).

(** [try { c } catch (error) { h }]. *)
Definition try_catch {A} (c : M A) (h : Err -> M A) : M A :=
  fun w =>
    match c w with
    | (w', Ok a) => (w', Ok a)
    | (w', Throw e) => h e w'
    end.

(** The world after one more call to a collaborator. *)
Definition logged (e : Event) (w : World) : World :=
  mkWorld (users w) (sessions w) (nextId w) (trace w ++ [e]).

(** A call whose promise is neither awaited nor given a handler: it is
    issued and the caller goes on whatever its outcome.  A rejection is
    caught by nobody: it stays an unhandled rejection, which the trace
    records. *)
Definition detached {A} (c : M A) : M unit :=
  fun w =>
    match c w with
    | (w', Ok _) => (w', Ok tt)
    | (w', Throw e) => (logged (EUnhandledRejection e) w', Ok tt)
    end.

Definition log (e : Event) : M unit :=
  fun w => (logged e w, Ok tt).

Definition get_users : M (list User.t) := fun w => (w, Ok (users w)).

Definition put_users (us : list User.t) : M unit :=
  fun w => (mkWorld us (sessions w) (nextId w) (trace w), Ok tt).

Definition lift_option {A} (e : Err) (o : option A) : M A :=
  match o with
  | Some a => ret a
  | None => throw e
  end.

Create HintDb run.
#[global] Hint Unfold ret throw bind try_catch detached log get_users put_users
  lift_option : run.

(** *** The user model *)

Definition userModel_exists (q : Filter) : M bool :=
  log (EUserExists q) ;;;
  us <- get_users ;;
  ret (existsb (matches q) us).

Definition userModel_create (d : Data.t) : M User.t :=
  log (EUserCreate d) ;;;
  fun w =>
    let u := new_user (nextId w) d in
    (mkWorld (users w ++ [u]) (sessions w) (S (nextId w)) (trace w), Ok u).

Definition userModel_updateOne (q : Filter) (upd : Update) : M unit :=
  log (EUserUpdateOne q upd) ;;;
  us <- get_users ;;
  put_users (update_first q upd us).

Definition userModel_findOne (q : Filter) : M (option User.t) :=
  log (EUserFindOne q) ;;;
  us <- get_users ;;
  ret (find (matches q) us).

(** [findOneAndUpdate] answers the document as it was before the update, or
    [null]. *)
Definition userModel_findOneAndUpdate (q : Filter) (upd : Update) : M (option User.t) :=
  log (EUserFindOneAndUpdate q upd) ;;;
  us <- get_users ;;
  put_users (update_first q upd us) ;;;
  ret (find (matches q) us).

Definition userSessionModel_create (s : UserSession) : M UserSession :=
  log (ESessionCreate s) ;;;
  fun w => (mkWorld (users w) (sessions w ++ [s]) (nextId w) (trace w), Ok s).

(** ** UserService *)

Section UserService.

Variable svc : Services.

(** *** The injected collaborators, as logged calls *)

Definition httpService_get (url : string) : M Geo :=
  log (EHttpGet url) ;;;
  lift_option HttpError (httpGet svc url).

Definition assemblyConstituencyService_findOne (regex : JsVal)
  : M (option AssemblyConstituency) :=
  log (EAssemblyFindOne regex) ;;;
  ret (assemblyFindOne svc regex).

Definition parliamentaryConstituencyService_findOne (i : option ObjectId)
  : M (option ParliamentaryConstituency) :=
  log (EParliamentaryFindOne i) ;;;
  ret (parliamentaryFindOne svc i).

Definition districtService_findOne (i : option ObjectId) : M (option District) :=
  log (EDistrictFindOne i) ;;;
  ret (districtFindOne svc i).

Definition stateService_findOne (i : option ObjectId) : M (option State) :=
  log (EStateFindOne i) ;;;
  ret (stateFindOne svc i).

Definition firebase_getUser (uid : JsVal) : M UserRecord :=
  log (EGetUser uid) ;;;
  lift_option FirebaseError (getUser svc uid).

Definition firebase_setCustomUserClaims (uid : JsVal) (c : Claims) : M unit :=
  log (ESetCustomUserClaims uid c) ;;;
  if setCustomUserClaims svc uid c then ret tt else throw FirebaseError.

(** *** getGeoByIp *)

Definition ipinfo_url (ip : string) : string :=
  "http://ipinfo.io/" ++ ip ++ "?token=539fe2e8e703ac".

(** The template literal [`India, ${geo.region}, ${geo.city}`]. *)
Definition ipGeo_string (geo : Geo) : string :=
  "India, " ++ template (region geo) ++ ", " ++ template (city geo).

Definition geo_patch (geo : Geo) (ip : string) : Data.t :=
  Data.mk JUndefined JUndefined JUndefined JUndefined None None None
    JUndefined JUndefined None (JStr (ipGeo_string geo)) (JStr ip).

Definition getGeoByIp (ip : string) (userId : JsVal) : M GeoByIpDto :=
  geo <- httpService_get (ipinfo_url ip) ;;
  let location := emptyLocation in
  (if truthy userId
   then userModel_updateOne (FEq PfirebaseId userId) (USet (geo_patch geo ip))
   else ret tt) ;;;
  if negb (loose_eq_str (country geo) "IN") then ret location
  else
    ac <- assemblyConstituencyService_findOne (city geo) ;;
    match ac with
    | None => ret emptyLocation
    | Some a =>
        pc <- parliamentaryConstituencyService_findOne (ac_parliamentaryConstituency a) ;;
        d <- districtService_findOne (ac_district a) ;;
        match d with
        | None => throw TypeError
        | Some d' =>
            st <- stateService_findOne (d_state d') ;;
            ret (mkGeoByIpDto (Some a) pc (Some d') st)
        end
    end.

(** *** checkCredentials *)

Definition field_clause (p : Path) (v : JsVal) : Filter :=
  FAnd [FEq p v; FNe p (JStr ""); FNe p JNull].

Definition credentials_query (credentials : Dto.t) : Filter :=
  let or :=
    [field_clause Pphone (Dto.phone credentials);
     field_clause Pemail (Dto.email credentials)] in
  let or :=
    if truthy (Dto.voterId credentials)
    then (or ++ [field_clause PvoterId (Dto.voterId credentials)])%list
    else or in
  let and : list Filter := [] in
  let and :=
    if truthy (Dto.firebaseId credentials)
    then (and ++ [FNe PfirebaseId (Dto.firebaseId credentials)])%list
    else and in
  let and :=
    match Dto._id credentials with
    | Some i => (and ++ [FIdNe i])%list
    | None => and
    end in
  FAnd (and ++ [FOr or]).

Definition checkCredentials (credentials : Dto.t) : M bool :=
  userModel_exists (credentials_query credentials).

(** *** create *)

Definition user_exists_msg : string := "User already exists".
Definition credentials_exist_msg : string :=
  "User with given credentials already exists".

(** The body of the [try] block shared by [create] and [update]: the
    verified flags are set on the caller's [data] object. *)
Definition enrich (uid : JsVal) (data : Data.t) : M Data.t :=
  user <- firebase_getUser uid ;;
  let data :=
    if truthy (Data.email data) && fb_emailVerified user
    then Data.set_emailVerified true data else data in
  let data :=
    if truthy (Data.phone data) && loose_eq (fb_phoneNumber user) (Data.phone data)
    then Data.set_phoneVerified true data else data in
  ret data.

Definition create (data : Data.t) : M User.t :=
  taken <- userModel_exists (FEq PfirebaseId (Data.firebaseId data)) ;;
  if taken then throw (BadRequestException user_exists_msg)
  else
    check <- checkCredentials (credentials_of data) ;;
    if check then throw (BadRequestException credentials_exist_msg)
    else
      let data := Data.set_activeSockets [] data in
      user <- userModel_create data ;;
      detached (firebase_setCustomUserClaims (Data.firebaseId data)
                  (mkClaims (User.location user) (User.dateOfBirth user)
                     (User.gender user))) ;;;
      (* the flags land on [data] after the insert: the stored document
         and the returned [user] do not see them *)
      _ <- try_catch (enrich (Data.firebaseId data) data) (fun _ => ret data) ;;
      ret user.

(** *** update *)

Definition not_exists_msg : string := "User not exists".

Definition update (query : Filter) (data : Data.t) : M User.t :=
  data <- try_catch (enrich (query_firebaseId query) data) (fun _ => ret data) ;;
  found <- userModel_findOneAndUpdate query (USet data) ;;
  match found with
  | Some u => ret u
  | None => throw (ForbiddenException not_exists_msg)
  end.

(** *** connected / disconnected *)

Record ConnectData : Type := mkConnectData {
  cd_user : string;
  cd_socketid : string;
  cd_platform : Platform
}.

Definition user_state (u : option User.t) : option ObjectId :=
  match u with
  | Some u' =>
      match User.location u' with
      | Some l => loc_state l
      | None => None
      end
  | None => None
  end.

(** [now] stands for [new Date()]. *)
Definition connected (now : Z) (data : ConnectData) : M unit :=
  if String.eqb (cd_socketid data) "" || String.eqb (cd_user data) "" then ret tt
  else
    userModel_updateOne (FEq PfirebaseId (JStr (cd_user data)))
      (UPushInc (mkActiveSocket (cd_socketid data) (cd_platform data) now)
         (cd_platform data)) ;;;
    user <- userModel_findOne (FEq PfirebaseId (JStr (cd_user data))) ;;
    detached (userSessionModel_create
                (mkUserSession (cd_user data) (cd_socketid data)
                   (cd_platform data) now (user_state user))) ;;;
    ret tt.

Definition disconnected (socketid : string) : M unit :=
  userModel_updateOne (FSocketId socketid) (UPullSocket socketid).

End UserService.

(** ** UserService, continued: delete, findOne and the counts

    These methods read or rewrite the collections directly; the trace keeps
    recording the calls of the methods above only. *)

(** *** create, between its awaits

    [create] awaits each of its two existence checks and then its insert,
    and another request may run at every one of these points.  Its body
    falls into the part before the insert and the part from the insert
    on. *)

Definition create_checks (data : Data.t) : M unit :=
  taken <- userModel_exists (FEq PfirebaseId (Data.firebaseId data)) ;;
  if taken then throw (BadRequestException user_exists_msg)
  else
    check <- checkCredentials (credentials_of data) ;;
    if check then throw (BadRequestException credentials_exist_msg)
    else ret tt.

Definition create_insert (svc : Services) (data : Data.t) : M User.t :=
  let data := Data.set_activeSockets [] data in
  user <- userModel_create data ;;
  detached (firebase_setCustomUserClaims svc (Data.firebaseId data)
              (mkClaims (User.location user) (User.dateOfBirth user)
                 (User.gender user))) ;;;
  _ <- try_catch (enrich svc (Data.firebaseId data) data) (fun _ => ret data) ;;
  ret user.

(** Two [create] calls whose checks both run before either insert. *)
Definition create_interleaved (svc svc' : Services) (data data' : Data.t)
  : M (User.t * User.t) :=
  create_checks data ;;;
  create_checks data' ;;;
  u <- create_insert svc data ;;
  u' <- create_insert svc' data' ;;
  ret (u, u').

Definition get_sessions : M (list UserSession) := fun w => (w, Ok (sessions w)).

(** *** delete *)

(** [deleteOne]: the first document in store order that matches is
    removed. *)
Fixpoint delete_first (q : Filter) (us : list User.t) : list User.t :=
  match us with
  | [] => []
  | u :: rest => if matches q u then rest else u :: delete_first q rest
  end.

(** [deleteOne] answers [{ deletedCount }]. *)
Definition userModel_deleteOne (q : Filter) : M nat :=
  us <- get_users ;;
  put_users (delete_first q us) ;;;
  ret (if existsb (matches q) us then 1 else 0).

Definition delete (query : Filter) : M nat :=
  userModel_deleteOne query.

(** *** findOne *)

(** The four reference collections the [$lookup] stages join against. *)
Record Civic : Type := mkCivic {
  State_docs : list State;
  District_docs : list District;
  AssemblyConstituency_docs : list AssemblyConstituency;
  ParliamentaryConstituency_docs : list ParliamentaryConstituency
}.

(** [location] after the joins: each reference replaced by the joined
    document, or absent. *)
Record JoinedLocation : Type := mkJoinedLocation {
  j_state : option State;
  j_district : option District;
  j_assemblyConstituency : option AssemblyConstituency;
  j_parliamentaryConstituency : option ParliamentaryConstituency
}.

(** [$lookup] on [_id]: the documents of the collection whose [_id] is the
    local value, in collection order; a missing local value joins nothing. *)
Definition lookup {A} (id_of : A -> ObjectId) (docs : list A) (ref : option ObjectId)
  : list A :=
  match ref with
  | Some i => filter (fun d => Nat.eqb (id_of d) i) docs
  | None => []
  end.

(** [$first]: absent on an empty array. *)
Definition first {A} (l : list A) : option A := hd_error l.

Definition user_ref (f : Location -> option ObjectId) (u : User.t) : option ObjectId :=
  match User.location u with
  | Some l => f l
  | None => None
  end.

(** The four [$lookup] stages followed by the [$addFields] stage. *)
Definition join_location (civic : Civic) (u : User.t) : User.t * JoinedLocation :=
  let state := lookup s_id (State_docs civic) (user_ref loc_state u) in
  let district := lookup d_id (District_docs civic) (user_ref loc_district u) in
  let assembly :=
    lookup ac_id (AssemblyConstituency_docs civic)
      (user_ref loc_assemblyConstituency u) in
  let parliamentary :=
    lookup pc_id (ParliamentaryConstituency_docs civic)
      (user_ref loc_parliamentaryConstituency u) in
  (u, mkJoinedLocation (first state) (first district) (first assembly)
        (first parliamentary)).

(** [(await aggregate([...]))[0]]. *)
Definition findOne (civic : Civic) (query : Filter)
  : M (option (User.t * JoinedLocation)) :=
  us <- get_users ;;
  ret (hd_error (map (join_location civic) (filter (matches query) us))).

(** *** getOnlineCounts / getCounts *)

(** [$group] with [$sum: 1]: one entry per distinct key, with the number of
    documents carrying it.  The server fixes no order for the entries; here
    they come in order of first occurrence. *)
Fixpoint bump_key {K} (eqb : K -> K -> bool) (k : K) (acc : list (K * nat))
  : list (K * nat) :=
  match acc with
  | [] => [(k, 1)]
  | (k', n) :: rest =>
      if eqb k' k then (k', S n) :: rest else (k', n) :: bump_key eqb k rest
  end.

Definition group_count {K} (eqb : K -> K -> bool) (keys : list K) : list (K * nat) :=
  fold_left (fun acc k => bump_key eqb k acc) keys [].

Definition Platform_eqb (p q : Platform) : bool :=
  match p, q with
  | app, app | web, web | webmobile, webmobile => true
  | _, _ => false
  end.

(** [FilterQuery<UserSessionDocument>]: the [state] key, which the service
    reads, and the conjunction of the other keys. *)
Record SessionFilter : Type := mkSessionFilter {
  sf_state : option ObjectId;
  sf_rest : UserSession -> bool
}.

Definition ref_is (i : ObjectId) (r : option ObjectId) : bool :=
  match r with
  | Some j => Nat.eqb j i
  | None => false
  end.

Definition session_matches (f : SessionFilter) (s : UserSession) : bool :=
  match sf_state f with
  | Some i => ref_is i (us_state s)
  | None => true
  end && sf_rest f s.

(** [userFilter]: [activeSockets: { $ne: [] }], and ['location.state'] when
    the filter has a [state]. *)
Definition userFilter (f : SessionFilter) (u : User.t) : bool :=
  match User.activeSockets u with [] => false | _ :: _ => true end
  && match sf_state f with
     | Some i => ref_is i (user_ref loc_state u)
     | None => true
     end.

Record OnlineCounts : Type := mkOnlineCounts {
  byPlatform : list (Platform * nat);
  byDate : list (string * nat)
}.

Section Counts.

(** [$dateToString] with a format, and the [createdAt] timestamp the store
    keeps for a user document. *)
Variable dateToString : string -> Z -> string.
Variable createdAt : User.t -> Z.

(** [timespan ?? fallback]. *)
Definition format_or (timespan : option string) (fallback : string) : string :=
  match timespan with
  | Some t => t
  | None => fallback
  end.

Definition getOnlineCounts (filter : SessionFilter) (timespan : option string)
  : M OnlineCounts :=
  us <- get_users ;;
  ss <- get_sessions ;;
  let byPlatform :=
    group_count Platform_eqb
      (map platform (flat_map User.activeSockets (List.filter (userFilter filter) us))) in
  let byDate :=
    group_count String.eqb
      (map (fun s => dateToString (format_or timespan "%Y-%m") (us_date s))
         (List.filter (session_matches filter) ss)) in
  ret (mkOnlineCounts byPlatform byDate).

Definition getCounts (filter : Filter) (timespan : option string)
  : M (list (string * nat)) :=
  us <- get_users ;;
  ret (group_count String.eqb
         (map (fun u => dateToString (format_or timespan "%Y-%m-%d") (createdAt u))
            (List.filter (matches filter) us))).

End Counts.

(** ** Vocabulary of the properties *)

(** A value that counts as not set: absent, [null] or the empty string. *)
Definition unset (v : JsVal) : Prop :=
  v = JUndefined \/ v = JNull \/ v = JStr "".

(** Candidate and stored value are the same non-empty string. *)
Definition nonempty_match (candidate stored : JsVal) : Prop :=
  exists s, s <> "" /\ candidate = JStr s /\ stored = JStr s.

(** [u] is the record the candidate names as its own: by a provided
    (non-empty) [firebaseId] or by a provided [_id]. *)
Definition is_self (c : Dto.t) (u : User.t) : Prop :=
  (truthy (Dto.firebaseId c) = true /\ User.firebaseId u = Dto.firebaseId c)
  \/ Dto._id c = Some (User._id u).

Definition collides (c : Dto.t) (u : User.t) : Prop :=
  nonempty_match (Dto.phone c) (User.phone u)
  \/ nonempty_match (Dto.email c) (User.email u)
  \/ nonempty_match (Dto.voterId c) (User.voterId u).

(** What [checkCredentials] answers on a given collection. *)
Definition reports_match (c : Dto.t) (us : list User.t) : bool :=
  existsb (matches (credentials_query c)) us.

(** An account with this [firebaseId] is in the collection. *)
Definition firebaseId_taken (fid : JsVal) (us : list User.t) : bool :=
  existsb (matches (FEq PfirebaseId fid)) us.

(** No document of [us] matches [q]. *)
Definition none_match (q : Filter) (us : list User.t) : Prop :=
  forall u, In u us -> matches q u = false.

(** The [data] object as [update] hands it to the store: the patch, with a
    verified flag added where the provider's record warrants it. *)
Definition enriched (svc : Services) (uid : JsVal) (data : Data.t) : Data.t :=
  match getUser svc uid with
  | None => data
  | Some user =>
      let data :=
        if truthy (Data.email data) && fb_emailVerified user
        then Data.set_emailVerified true data else data in
      if truthy (Data.phone data) && loose_eq (fb_phoneNumber user) (Data.phone data)
      then Data.set_phoneVerified true data else data
  end.

(** Every call to the identity provider rejects. *)
Definition provider_down (svc : Services) : Prop :=
  (forall uid, getUser svc uid = None)
  /\ (forall uid c, setCustomUserClaims svc uid c = false).

(** A string field after a plain-object update: the patch's value when
    the patch has the key, the record's own value otherwise. *)
Definition field_set (new old stored : JsVal) : Prop :=
  (new = JUndefined -> stored = old) /\ (new <> JUndefined -> stored = new).

Definition opt_field_set {A} (new old stored : option A) : Prop :=
  (new = None -> stored = old) /\ (forall a, new = Some a -> stored = Some a).

(** The patch has a non-empty email and the provider's record for [uid]
    is flagged verified. *)
Definition email_confirmed (svc : Services) (uid : JsVal) (data : Data.t) : Prop :=
  exists r e,
    getUser svc uid = Some r /\ fb_emailVerified r = true
    /\ e <> "" /\ Data.email data = JStr e.

(** The patch has a non-empty phone and the provider's record for [uid]
    carries that number. *)
Definition phone_confirmed (svc : Services) (uid : JsVal) (data : Data.t) : Prop :=
  exists r p,
    getUser svc uid = Some r /\ p <> ""
    /\ Data.phone data = JStr p /\ fb_phoneNumber r = JStr p.

(** A verified flag after [update]: [true] when the provider confirms,
    whatever the patch says; otherwise the patch's flag when it has one,
    the record's own otherwise. *)
Definition flag_set (confirmed : Prop) (new old stored : option bool) : Prop :=
  (confirmed -> stored = Some true)
  /\ (~ confirmed -> opt_field_set new old stored).

(** [u'] is [u] with the patch [data] of an [update] applied, the provider
    being asked about [uid]: every field of the stored record, one by
    one. *)
Definition patch_applied (svc : Services) (uid : JsVal) (data : Data.t)
           (u u' : User.t) : Prop :=
  User._id u' = User._id u
  /\ field_set (Data.firebaseId data) (User.firebaseId u) (User.firebaseId u')
  /\ field_set (Data.phone data) (User.phone u) (User.phone u')
  /\ field_set (Data.email data) (User.email u) (User.email u')
  /\ field_set (Data.voterId data) (User.voterId u) (User.voterId u')
  /\ flag_set (email_confirmed svc uid data)
       (Data.emailVerified data) (User.emailVerified u) (User.emailVerified u')
  /\ flag_set (phone_confirmed svc uid data)
       (Data.phoneVerified data) (User.phoneVerified u) (User.phoneVerified u')
  /\ opt_field_set (Data.location data) (User.location u) (User.location u')
  /\ field_set (Data.dateOfBirth data) (User.dateOfBirth u) (User.dateOfBirth u')
  /\ field_set (Data.gender data) (User.gender u) (User.gender u')
  /\ (Data.activeSockets data = None -> User.activeSockets u' = User.activeSockets u)
  /\ (forall l, Data.activeSockets data = Some l -> User.activeSockets u' = l)
  /\ User.platformOnline u' = User.platformOnline u
  /\ field_set (Data.ipGeo data) (User.ipGeo u) (User.ipGeo u')
  /\ field_set (Data.lastIp data) (User.lastIp u) (User.lastIp u').

(** The user collection once [getGeoByIp] has passed its write. *)
Definition geo_users (ip : string) (userId : JsVal) (geo : Geo) (us : list User.t)
  : list User.t :=
  if truthy userId
  then update_first (FEq PfirebaseId userId) (USet (geo_patch geo ip)) us
  else us.

(** The calls [getGeoByIp] issues up to and including its write. *)
Definition geo_calls (ip : string) (userId : JsVal) (geo : Geo) : list Event :=
  EHttpGet (ipinfo_url ip)
  :: (if truthy userId
      then [EUserUpdateOne (FEq PfirebaseId userId) (USet (geo_patch geo ip))]
      else []).

(** The fixed prefix of the stored geo string. *)
Definition india_prefix : string := "India, ".

(** The session [connected] logs. *)
Definition session_of (now : Z) (data : ConnectData) (us : list User.t) : UserSession :=
  mkUserSession (cd_user data) (cd_socketid data) (cd_platform data) now
    (user_state (find (matches (FEq PfirebaseId (JStr (cd_user data)))) us)).

Definition socket_of (now : Z) (data : ConnectData) : ActiveSocket :=
  mkActiveSocket (cd_socketid data) (cd_platform data) now.

(** One more connection on platform [p]. *)
Definition bumped (o : option Z) : option Z :=
  Some (match o with Some n => n + 1 | None => 1 end)%Z.

(** Two records carry the same non-empty phone, email or voterId. *)
Definition shares_credential (u v : User.t) : Prop :=
  nonempty_match (User.phone u) (User.phone v)
  \/ nonempty_match (User.email u) (User.email v)
  \/ nonempty_match (User.voterId u) (User.voterId v).

(** No two records of the collection share a credential. *)
Definition credentials_unique (us : list User.t) : Prop :=
  ForallOrdPairs (fun u v => ~ shares_credential u v) us.

(** No record's [firebaseId] answers a query for another record's. *)
Definition firebaseIds_unique (us : list User.t) : Prop :=
  ForallOrdPairs
    (fun u v => eq_match (User.firebaseId v) (User.firebaseId u) = false) us.

(** The candidate a stored user submits about itself: its own values and
    its own [_id]. *)
Definition own_credentials (u : User.t) : Dto.t :=
  Dto.mk (User.phone u) (User.email u) (User.voterId u) (User.firebaseId u)
    (Some (User._id u)).

(** A record with its two geo fields blanked. *)
Definition without_geo (u : User.t) : User.t :=
  User.mk (User._id u) (User.firebaseId u) (User.phone u) (User.email u)
    (User.voterId u) (User.emailVerified u) (User.phoneVerified u)
    (User.location u) (User.dateOfBirth u) (User.gender u)
    (User.activeSockets u) (User.platformOnline u) JUndefined JUndefined.

(** The count a grouping reports for key [k]; 0 when it has no entry. *)
Definition count_for {K} (eqb : K -> K -> bool) (k : K) (groups : list (K * nat)) : nat :=
  match find (fun e => eqb (fst e) k) groups with
  | Some e => snd e
  | None => 0
  end.

(** How many of [keys] are [k]. *)
Definition occurrences {K} (eqb : K -> K -> bool) (k : K) (keys : list K) : nat :=
  List.length (List.filter (fun k' => eqb k' k) keys).

(** The platforms of the sockets [getOnlineCounts] counts. *)
Definition online_platforms (f : SessionFilter) (us : list User.t) : list Platform :=
  map platform (flat_map User.activeSockets (List.filter (userFilter f) us)).

(** The filter with no keys. *)
Definition any_session : SessionFilter := mkSessionFilter None (fun _ => true).

(** The [state] condition of a session filter, on a user's location. *)
Definition in_state (f : SessionFilter) (u : User.t) : bool :=
  match sf_state f with
  | Some i => ref_is i (user_ref loc_state u)
  | None => true
  end.

(** How many of a user's active sockets are on platform [p]. *)
Definition sockets_on (p : Platform) (u : User.t) : nat :=
  List.length (List.filter (fun a => Platform_eqb (platform a) p) (User.activeSockets u)).

(** What a join stage may leave in a location field: a document of the
    collection whose [_id] is the reference, or nothing when the reference
    is missing or names no document. *)
Definition joined {A} (id_of : A -> ObjectId) (docs : list A)
           (ref : option ObjectId) (r : option A) : Prop :=
  match r with
  | Some d => ref = Some (id_of d) /\ In d docs
  | None => forall d, In d docs -> ref <> Some (id_of d)
  end.

(** ** Sample worlds *)

Definition blank_user (i : ObjectId) (fid : string) : User.t :=
  User.mk i (JStr fid) JUndefined JUndefined JUndefined None None None
    JUndefined JUndefined [] noPlatformOnline JUndefined JUndefined.

Definition world_of (us : list User.t) : World :=
  mkWorld us [] (List.length us) [].

(** Every collaborator unavailable: requests reject, lookups find nothing. *)
Definition all_down : Services :=
  mkServices (fun _ => None) (fun _ => None) (fun _ => None) (fun _ => None)
    (fun _ => None) (fun _ => None) (fun _ _ => false).

(** A geo-IP endpoint that answers [g] for every address. *)
Definition geo_only (g : Geo) : Services :=
  mkServices (fun _ => Some g) (fun _ => None) (fun _ => None) (fun _ => None)
    (fun _ => None) (fun _ => None) (fun _ _ => false).

(** An identity provider that knows the single account [uid]. *)
Definition firebase_only (uid : string) (r : UserRecord) : Services :=
  mkServices (fun _ => None) (fun _ => None) (fun _ => None) (fun _ => None)
    (fun _ => None)
    (fun v => if JsVal_eqb v (JStr uid) then Some r else None)
    (fun _ _ => true).

Definition california : Geo :=
  mkGeo (JStr "US") (JStr "California") (JStr "Mountain View").

Definition with_phone (fid phone : string) : Data.t :=
  Data.mk (JStr fid) (JStr phone) JUndefined JUndefined None None None
    JUndefined JUndefined None JUndefined JUndefined.

Definition email_patch (e : string) : Data.t :=
  Data.mk JUndefined JUndefined (JStr e) JUndefined None None None
    JUndefined JUndefined None JUndefined JUndefined.

Definition with_email (i : ObjectId) (fid e : string) (verified : option bool) : User.t :=
  User.mk i (JStr fid) JUndefined (JStr e) JUndefined verified None None
    JUndefined JUndefined [] noPlatformOnline JUndefined JUndefined.

Definition with_sockets (i : ObjectId) (fid : string) (l : list ActiveSocket)
           (po : PlatformOnline) : User.t :=
  User.mk i (JStr fid) JUndefined JUndefined JUndefined None None None
    JUndefined JUndefined l po JUndefined JUndefined.

Definition phone_patch (p : string) : Data.t :=
  Data.mk JUndefined (JStr p) JUndefined JUndefined None None None
    JUndefined JUndefined None JUndefined JUndefined.

Definition phone_user (i : ObjectId) (fid p : string) : User.t :=
  User.mk i (JStr fid) (JStr p) JUndefined JUndefined None None None
    JUndefined JUndefined [] noPlatformOnline JUndefined JUndefined.

(** A geo-IP endpoint and civic stores with fixed answers; the identity
    provider is down. *)
Definition civic_services (g : Geo) (a : option AssemblyConstituency)
           (p : option ParliamentaryConstituency) (d : option District)
           (st : option State) : Services :=
  mkServices (fun _ => Some g) (fun _ => a) (fun _ => p) (fun _ => d) (fun _ => st)
    (fun _ => None) (fun _ _ => false).

Definition bengaluru : Geo :=
  mkGeo (JStr "IN") (JStr "Karnataka") (JStr "Bengaluru").

Definition shivajinagar : AssemblyConstituency :=
  mkAssemblyConstituency 10 "Shivajinagar" (Some 20) (Some 30).

Definition bangalore_central : ParliamentaryConstituency :=
  mkParliamentaryConstituency 20 "Bangalore Central".

Definition bengaluru_urban : District := mkDistrict 30 "Bengaluru Urban" (Some 40).

Definition karnataka : State := mkState 40 "Karnataka".

(** Two users on two sockets each, one socket id in common. *)
Definition two_holders : World :=
  world_of
    [with_sockets 0 "u0" [mkActiveSocket "s1" web 1; mkActiveSocket "s2" app 2]
       noPlatformOnline;
     with_sockets 1 "u1" [mkActiveSocket "s1" app 3] noPlatformOnline].

(** * Properties *)

Open Scope list_scope.

(** ** Values and filters *)

Lemma truthy_spec (v : JsVal) :
  truthy v = true <-> exists s, s <> "" /\ v = JStr s.
Proof.
  destruct v as [| |s]; simpl.
  - split; [discriminate | intros (s & _ & H); discriminate].
  - split; [discriminate | intros (s & _ & H); discriminate].
  - rewrite negb_true_iff. split.
    + intros H. exists s. split; [|reflexivity].
      intros ->. rewrite String.eqb_refl in H. discriminate.
    + intros (t & Hne & Heq). injection Heq as ->.
      apply String.eqb_neq. exact Hne.
Qed.

Lemma unset_not_truthy (v : JsVal) : unset v <-> truthy v = false.
Proof.
  unfold unset. destruct v as [| |s]; simpl.
  - tauto.
  - split; auto.
  - rewrite negb_false_iff, String.eqb_eq. split.
    + intros [H|[H|H]]; try discriminate. now injection H.
    + intros ->. auto.
Qed.

Lemma nonempty_match_truthy (c d : JsVal) :
  nonempty_match c d -> truthy c = true /\ truthy d = true.
Proof.
  intros (s & Hne & -> & ->). split; apply truthy_spec; exists s; auto.
Qed.

(** One [$and] clause of the credential query holds exactly for a matching
    non-empty value. *)
Lemma field_clause_spec (p : Path) (v : JsVal) (u : User.t) :
  matches (field_clause p v) u = true <-> nonempty_match v (get p u).
Proof.
  unfold field_clause, nonempty_match. simpl.
  destruct v as [| |s], (get p u) as [| |t]; simpl;
    try (split; [discriminate | intros (x & _ & H1 & H2); discriminate]).
  rewrite andb_true_r. split.
  - intros H. apply andb_true_iff in H as [H1 H2].
    apply String.eqb_eq in H1. subst t.
    apply negb_true_iff in H2.
    exists s. repeat split; auto.
    intros ->. simpl in H2. discriminate.
  - intros (x & Hne & H1 & H2). injection H1 as ->. injection H2 as ->.
    rewrite String.eqb_refl. simpl. apply negb_true_iff.
    destruct x; [exfalso; now apply Hne | reflexivity].
Qed.

Lemma forallb_app_single {A} (f : A -> bool) (l : list A) (x : A) :
  forallb f (l ++ [x]) = forallb f l && f x.
Proof. rewrite forallb_app. simpl. now rewrite andb_true_r. Qed.

(** The self-exclusion part of the query. *)
Lemma self_exclusion_spec (c : Dto.t) (u : User.t) :
  (if truthy (Dto.firebaseId c)
   then negb (eq_match (Dto.firebaseId c) (User.firebaseId u)) else true)
  && (match Dto._id c with
      | Some i => negb (Nat.eqb (User._id u) i)
      | None => true
      end) = true
  <-> ~ is_self c u.
Proof.
  unfold is_self. rewrite andb_true_iff. split.
  - intros [H1 H2] [[Ht He] | Hi].
    + rewrite Ht in H1. rewrite He in H1.
      apply truthy_spec in Ht as (s & _ & Hs). rewrite Hs in H1. simpl in H1.
      rewrite String.eqb_refl in H1. discriminate.
    + rewrite Hi in H2. rewrite Nat.eqb_refl in H2. discriminate.
  - intros H. split.
    + destruct (truthy (Dto.firebaseId c)) eqn:Ht; [|reflexivity].
      apply negb_true_iff. destruct (eq_match _ _) eqn:He; [|reflexivity].
      exfalso. apply H. left. split; [reflexivity|].
      apply truthy_spec in Ht as (s & _ & Hs). rewrite Hs in *.
      simpl in He. destruct (User.firebaseId u) as [| |t]; try discriminate.
      apply String.eqb_eq in He. now subst.
    + destruct (Dto._id c) as [i|] eqn:Hi; [|reflexivity].
      apply negb_true_iff. destruct (Nat.eqb_spec (User._id u) i) as [E|E]; [|reflexivity].
      exfalso. apply H. right. now subst.
Qed.

Lemma credentials_query_spec (c : Dto.t) (u : User.t) :
  matches (credentials_query c) u = true <-> ~ is_self c u /\ collides c u.
Proof.
  rewrite <- self_exclusion_spec. unfold credentials_query, collides.
  cbn [matches]. rewrite forallb_app_single. cbn [matches].
  rewrite andb_true_iff.
  assert (Hor :
    existsb (fun q' => matches q' u)
      (if truthy (Dto.voterId c)
       then ([field_clause Pphone (Dto.phone c); field_clause Pemail (Dto.email c)]
               ++ [field_clause PvoterId (Dto.voterId c)])%list
       else [field_clause Pphone (Dto.phone c); field_clause Pemail (Dto.email c)]) = true
    <-> nonempty_match (Dto.phone c) (User.phone u)
        \/ nonempty_match (Dto.email c) (User.email u)
        \/ nonempty_match (Dto.voterId c) (User.voterId u)).
  { destruct (truthy (Dto.voterId c)) eqn:Hv; cbn [existsb List.app];
      rewrite ?orb_true_iff, ?orb_false_r, ?field_clause_spec; cbn [get].
    - split; [intros [H|[H|[H|H]]]; auto; discriminate | tauto].
    - split; [intros [H|[H|H]]; auto; discriminate|]. intros [H|[H|H]]; auto.
      apply nonempty_match_truthy in H as [H _]. congruence. }
  assert (Hand :
    forallb (fun q' => matches q' u)
      (match Dto._id c with
       | Some i =>
           ((if truthy (Dto.firebaseId c)
             then ([] ++ [FNe PfirebaseId (Dto.firebaseId c)])%list else []) ++ [FIdNe i])%list
       | None =>
           if truthy (Dto.firebaseId c)
           then ([] ++ [FNe PfirebaseId (Dto.firebaseId c)])%list else []
       end)
    = (if truthy (Dto.firebaseId c)
       then negb (eq_match (Dto.firebaseId c) (User.firebaseId u)) else true)
      && (match Dto._id c with
          | Some i => negb (Nat.eqb (User._id u) i)
          | None => true
          end)).
  { destruct (Dto._id c), (truthy (Dto.firebaseId c)); cbn;
      rewrite ?andb_true_r; reflexivity. }
  rewrite Hand, Hor. reflexivity.
Qed.

(** ** Running the store primitives *)

Lemma userModel_exists_run (q : Filter) (w : World) :
  userModel_exists q w = (logged (EUserExists q) w, Ok (existsb (matches q) (users w))).
Proof. reflexivity. Qed.

Lemma checkCredentials_run (c : Dto.t) (w : World) :
  checkCredentials c w
  = (logged (EUserExists (credentials_query c)) w, Ok (reports_match c (users w))).
Proof. reflexivity. Qed.

(** C1. [checkCredentials] answers [true] exactly when some stored user,
    other than the one the candidate names as itself by a provided
    [firebaseId] or [_id], has the candidate's non-empty phone, non-empty
    email or (supplied) non-empty voterId; unset values never collide, so
    the answer is [false] when the three candidate values are unset, and
    when they are unset on every stored user.  The collection is left as
    it was. *)
Theorem checkCredentials_spec (c : Dto.t) (w : World) :
  exists b,
    snd (checkCredentials c w) = Ok b
    /\ users (fst (checkCredentials c w)) = users w
    /\ (b = true <->
        exists u, In u (users w) /\ ~ is_self c u /\ collides c u)
    /\ (unset (Dto.phone c) /\ unset (Dto.email c) /\ unset (Dto.voterId c) ->
        b = false)
    /\ ((forall u, In u (users w) ->
           unset (User.phone u) /\ unset (User.email u) /\ unset (User.voterId u)) ->
        b = false).
Proof.
  exists (reports_match c (users w)). rewrite checkCredentials_run. simpl.
  assert (Hiff : reports_match c (users w) = true <->
                 exists u, In u (users w) /\ ~ is_self c u /\ collides c u).
  { unfold reports_match. rewrite existsb_exists.
    split; intros (u & Hin & H); exists u; split; auto;
      now apply credentials_query_spec. }
  repeat split; try apply Hiff.
  - intros (Hp & He & Hv). apply not_true_is_false. intros Hb.
    apply Hiff in Hb as (u & _ & _ & [H|[H|H]]);
      apply nonempty_match_truthy in H as [H _];
      [apply unset_not_truthy in Hp | apply unset_not_truthy in He
       | apply unset_not_truthy in Hv]; congruence.
  - intros Hall. apply not_true_is_false. intros Hb.
    apply Hiff in Hb as (u & Hin & _ & Hc).
    destruct (Hall u Hin) as (Hp & He & Hv).
    destruct Hc as [H|[H|H]];
      apply nonempty_match_truthy in H as [_ H];
      [apply unset_not_truthy in Hp | apply unset_not_truthy in He
       | apply unset_not_truthy in Hv]; congruence.
Qed.

(** ** The first matching document *)

Lemma none_match_forallb (q : Filter) (us : list User.t) :
  none_match q us <-> existsb (matches q) us = false.
Proof.
  unfold none_match. induction us as [|u us IH]; simpl.
  - split; auto. intros _ u [].
  - rewrite orb_false_iff, <- IH. split.
    + intros H. split; [apply H; now left | intros v Hv; apply H; now right].
    + intros [H1 H2] v [<-|Hv]; auto.
Qed.

Lemma update_first_none (q : Filter) (upd : Update) (us : list User.t) :
  none_match q us -> update_first q upd us = us.
Proof.
  induction us as [|u us IH]; intros H; simpl; [reflexivity|].
  rewrite (H u (or_introl eq_refl)). f_equal. apply IH.
  intros v Hv. apply H. now right.
Qed.

Lemma update_first_split (q : Filter) (upd : Update)
      (pre : list User.t) (u : User.t) (post : list User.t) :
  none_match q pre -> matches q u = true ->
  update_first q upd (pre ++ u :: post) = pre ++ apply_update upd u :: post.
Proof.
  intros Hpre Hu. induction pre as [|v pre IH]; simpl.
  - now rewrite Hu.
  - rewrite (Hpre v (or_introl eq_refl)). f_equal. apply IH.
    intros x Hx. apply Hpre. now right.
Qed.

Lemma find_none (q : Filter) (us : list User.t) :
  none_match q us -> find (matches q) us = None.
Proof.
  induction us as [|u us IH]; intros H; simpl; [reflexivity|].
  rewrite (H u (or_introl eq_refl)). apply IH.
  intros v Hv. apply H. now right.
Qed.

Lemma find_split (q : Filter) (pre : list User.t) (u : User.t) (post : list User.t) :
  none_match q pre -> matches q u = true ->
  find (matches q) (pre ++ u :: post) = Some u.
Proof.
  intros Hpre Hu. induction pre as [|v pre IH]; simpl.
  - now rewrite Hu.
  - rewrite (Hpre v (or_introl eq_refl)). apply IH.
    intros x Hx. apply Hpre. now right.
Qed.

Lemma find_existsb (q : Filter) (us : list User.t) :
  existsb (matches q) us = match find (matches q) us with Some _ => true | None => false end.
Proof.
  induction us as [|v us IH]; simpl; [reflexivity|].
  destruct (matches q v); simpl; auto.
Qed.

(** A string [firebaseId] is taken exactly when a stored user carries it. *)
Lemma firebaseId_taken_spec (s : string) (us : list User.t) :
  firebaseId_taken (JStr s) us = true <->
  exists u, In u us /\ User.firebaseId u = JStr s.
Proof.
  unfold firebaseId_taken. rewrite existsb_exists.
  split; intros (u & Hin & H); exists u; split; auto; simpl in *.
  - destruct (User.firebaseId u); try discriminate.
    apply String.eqb_eq in H. now subst.
  - rewrite H. apply String.eqb_refl.
Qed.

(** ** create *)

(** A run of [create], in the order the method tests its cases.  The
    provider's answers enter neither the result nor the collections; a
    rejected claims call shows in the trace as an unhandled rejection, a
    rejected lookup shows nowhere. *)
Lemma create_run (svc : Services) (data : Data.t) (w : World) :
  let e1 := EUserExists (FEq PfirebaseId (Data.firebaseId data)) in
  let e2 := EUserExists (credentials_query (credentials_of data)) in
  let u := new_user (nextId w) (Data.set_activeSockets [] data) in
  let claims :=
    mkClaims (Data.location data) (Data.dateOfBirth data) (Data.gender data) in
  create svc data w
  = if firebaseId_taken (Data.firebaseId data) (users w)
    then (logged e1 w, Throw (BadRequestException user_exists_msg))
    else if reports_match (credentials_of data) (users w)
    then (logged e2 (logged e1 w), Throw (BadRequestException credentials_exist_msg))
    else (mkWorld (users w ++ [u]) (sessions w) (S (nextId w))
            (trace w ++
             [e1; e2; EUserCreate (Data.set_activeSockets [] data);
              ESetCustomUserClaims (Data.firebaseId data) claims]
             ++ (if setCustomUserClaims svc (Data.firebaseId data) claims
                 then [] else [EUnhandledRejection FirebaseError])
             ++ [EGetUser (Data.firebaseId data)]),
          Ok u).
Proof.
  intros e1 e2 u claims. unfold firebaseId_taken, create. unfold bind at 1.
  rewrite userModel_exists_run. fold e1.
  destruct (existsb (matches (FEq PfirebaseId (Data.firebaseId data))) (users w));
    [reflexivity|].
  unfold bind at 1. rewrite checkCredentials_run. fold e2.
  change (users (logged e1 w)) with (users w).
  destruct (reports_match (credentials_of data) (users w)); [reflexivity|].
  unfold firebase_setCustomUserClaims, enrich, firebase_getUser, userModel_create.
  autounfold with run. unfold logged. subst e1 e2 u claims. cbn.
  destruct (getUser svc _), (setCustomUserClaims svc _ _); cbn;
    repeat rewrite <- app_assoc; reflexivity.
Qed.

(** C2. [create] fails with the duplicate-identity error when an account
    with [data.firebaseId] exists; otherwise it fails with the
    duplicate-credential error when [checkCredentials] reports a match;
    otherwise it appends one record, whose [activeSockets] is empty, and
    returns it.  Whenever [checkCredentials] reports a match the call fails
    with a bad-request error, and no failing call inserts a record. *)
Theorem create_duplicate_checks (svc : Services) (data : Data.t) (w : World) :
  let w' := fst (create svc data w) in
  let r := snd (create svc data w) in
  (firebaseId_taken (Data.firebaseId data) (users w) = true ->
   r = Throw (BadRequestException user_exists_msg) /\ users w' = users w)
  /\ (firebaseId_taken (Data.firebaseId data) (users w) = false ->
      snd (checkCredentials (credentials_of data) w) = Ok true ->
      r = Throw (BadRequestException credentials_exist_msg) /\ users w' = users w)
  /\ (snd (checkCredentials (credentials_of data) w) = Ok true ->
      exists msg, r = Throw (BadRequestException msg) /\ users w' = users w)
  /\ (firebaseId_taken (Data.firebaseId data) (users w) = false ->
      snd (checkCredentials (credentials_of data) w) = Ok false ->
      exists u, r = Ok u /\ User.activeSockets u = [] /\ users w' = users w ++ [u])
  /\ (forall e, r = Throw e -> users w' = users w).
Proof.
  intros w' r. subst w' r. rewrite checkCredentials_run, create_run. cbn [snd].
  destruct (firebaseId_taken (Data.firebaseId data) (users w));
    [| destruct (reports_match (credentials_of data) (users w))];
    cbn [fst snd users logged].
  - repeat split; try discriminate; auto.
    intros _. eexists; split; reflexivity.
  - repeat split; try discriminate; auto.
    intros _. eexists; split; reflexivity.
  - repeat split; try discriminate.
    intros _ _. eexists. repeat split; reflexivity.
Qed.

(** A second account with the phone of the first is refused, and the first
    stays as it was. *)
Example create_same_phone_twice :
  let w1 := fst (create all_down (with_phone "a" "9990001111") (world_of [])) in
  let run := create all_down (with_phone "b" "9990001111") w1 in
  snd run = Throw (BadRequestException credentials_exist_msg)
  /\ users (fst run) = users w1
  /\ List.length (users w1) = 1.
Proof. repeat split. Qed.

(** With both checks passed and every provider call rejecting, [create]
    returns the record it inserted.  Of the two rejections, the lookup's is
    caught by the [try] block and leaves no mark; the claims call's has no
    handler and stays an unhandled rejection. *)
Lemma create_provider_down (svc : Services) (data : Data.t) (w : World) :
  provider_down svc ->
  firebaseId_taken (Data.firebaseId data) (users w) = false ->
  reports_match (credentials_of data) (users w) = false ->
  let u := new_user (nextId w) (Data.set_activeSockets [] data) in
  snd (create svc data w) = Ok u
  /\ users (fst (create svc data w)) = users w ++ [u]
  /\ trace (fst (create svc data w))
     = trace w ++
       [EUserExists (FEq PfirebaseId (Data.firebaseId data));
        EUserExists (credentials_query (credentials_of data));
        EUserCreate (Data.set_activeSockets [] data);
        ESetCustomUserClaims (Data.firebaseId data)
          (mkClaims (Data.location data) (Data.dateOfBirth data) (Data.gender data));
        EUnhandledRejection FirebaseError;
        EGetUser (Data.firebaseId data)].
Proof.
  intros [_ Hclaims] Ht Hc u. subst u.
  rewrite create_run, Ht, Hc, Hclaims. cbn [fst snd users trace].
  repeat split.
Qed.

(** C5, on an input where the claim and the method part.  Both checks
    pass and every provider call rejects.  [create] does return the record
    it inserted, but only the lookup's rejection is caught: the claims
    call, neither awaited nor given a handler, leaves an unhandled
    rejection behind. *)
Theorem create_leaves_claims_rejection_unhandled :
  let data := with_phone "f1" "9990001111" in
  let run := create all_down data (world_of []) in
  let claims := mkClaims None JUndefined JUndefined in
  setCustomUserClaims all_down (JStr "f1") claims = false
  /\ getUser all_down (JStr "f1") = None
  /\ snd run = Ok (new_user 0 (Data.set_activeSockets [] data))
  /\ trace (fst run)
     = [EUserExists (FEq PfirebaseId (JStr "f1"));
        EUserExists (credentials_query (credentials_of data));
        EUserCreate (Data.set_activeSockets [] data);
        ESetCustomUserClaims (JStr "f1") claims;
        EUnhandledRejection FirebaseError;
        EGetUser (JStr "f1")].
Proof. repeat split. Qed.

(** ** update *)

Lemma enrich_run (svc : Services) (uid : JsVal) (data : Data.t) (w : World) :
  try_catch (enrich svc uid data) (fun _ => ret data) w
  = (logged (EGetUser uid) w, Ok (enriched svc uid data)).
Proof.
  unfold enrich, enriched, firebase_getUser. autounfold with run.
  destruct (getUser svc uid); reflexivity.
Qed.

Lemma update_run (svc : Services) (q : Filter) (data : Data.t) (w : World) :
  let d := enriched svc (query_firebaseId q) data in
  update svc q data w
  = (mkWorld (update_first q (USet d) (users w)) (sessions w) (nextId w)
       ((trace w ++ [EGetUser (query_firebaseId q)]) ++ [EUserFindOneAndUpdate q (USet d)]),
     match find (matches q) (users w) with
     | Some u => Ok u
     | None => Throw (ForbiddenException not_exists_msg)
     end).
Proof.
  intros d. unfold update. unfold bind at 1. rewrite enrich_run. fold d.
  unfold userModel_findOneAndUpdate. autounfold with run. unfold logged.
  cbn [users sessions nextId trace].
  destruct (find (matches q) (users w)); reflexivity.
Qed.

Lemma field_set_or_keep (new old : JsVal) : field_set new old (or_keep new old).
Proof. unfold field_set. destruct new; simpl; split; congruence. Qed.

Lemma opt_field_set_or_keep {A} (new old : option A) :
  opt_field_set new old (opt_or_keep new old).
Proof. unfold opt_field_set. destruct new; simpl; split; congruence. Qed.

(** The email flag of the enriched patch. *)
Lemma enriched_emailVerified (svc : Services) (uid : JsVal) (data : Data.t)
      (old : option bool) :
  flag_set (email_confirmed svc uid data) (Data.emailVerified data) old
    (opt_or_keep (Data.emailVerified (enriched svc uid data)) old).
Proof.
  unfold flag_set, email_confirmed, enriched.
  destruct (getUser svc uid) as [r|].
  - cbv zeta.
    assert (Hflag : forall d : Data.t,
      Data.emailVerified
        (if truthy (Data.phone d) && loose_eq (fb_phoneNumber r) (Data.phone d)
         then Data.set_phoneVerified true d else d) = Data.emailVerified d).
    { intros d.
      destruct (truthy (Data.phone d) && loose_eq (fb_phoneNumber r) (Data.phone d));
        reflexivity. }
    rewrite Hflag.
    destruct (truthy (Data.email data) && fb_emailVerified r) eqn:Hb.
    + split; [reflexivity|]. intros Hn. exfalso. apply Hn.
      apply andb_true_iff in Hb as [Ht Hv].
      apply truthy_spec in Ht as (e & Hne & He).
      exists r, e. auto.
    + split; [|intros _; apply opt_field_set_or_keep].
      intros (r' & e & [= <-] & Hv & Hne & He). exfalso.
      assert (Ht : truthy (Data.email data) = true)
        by (apply truthy_spec; exists e; auto).
      rewrite Ht, Hv in Hb. discriminate.
  - split.
    + intros (r & e & H & _). discriminate.
    + intros _. apply opt_field_set_or_keep.
Qed.

(** The phone flag of the enriched patch. *)
Lemma enriched_phoneVerified (svc : Services) (uid : JsVal) (data : Data.t)
      (old : option bool) :
  flag_set (phone_confirmed svc uid data) (Data.phoneVerified data) old
    (opt_or_keep (Data.phoneVerified (enriched svc uid data)) old).
Proof.
  unfold flag_set, phone_confirmed, enriched.
  destruct (getUser svc uid) as [r|].
  - assert (Hphone : Data.phone
              (if truthy (Data.email data) && fb_emailVerified r
               then Data.set_emailVerified true data else data) = Data.phone data)
      by (destruct (truthy (Data.email data) && fb_emailVerified r); reflexivity).
    assert (Hflag : Data.phoneVerified
              (if truthy (Data.email data) && fb_emailVerified r
               then Data.set_emailVerified true data else data) = Data.phoneVerified data)
      by (destruct (truthy (Data.email data) && fb_emailVerified r); reflexivity).
    cbv zeta. rewrite Hphone.
    destruct (truthy (Data.phone data) && loose_eq (fb_phoneNumber r) (Data.phone data))
      eqn:Hb.
    + split; [reflexivity|]. intros Hn. exfalso. apply Hn.
      apply andb_true_iff in Hb as [Ht Hl].
      apply truthy_spec in Ht as (p & Hne & Hp). rewrite Hp in Hl.
      exists r, p. repeat split; auto.
      destruct (fb_phoneNumber r) as [| |t]; simpl in Hl; try discriminate.
      apply String.eqb_eq in Hl. now subst.
    + rewrite Hflag. split; [|intros _; apply opt_field_set_or_keep].
      intros (r' & p & [= <-] & Hne & Hp & Hr). exfalso.
      assert (Ht : truthy (Data.phone data) = true)
        by (apply truthy_spec; exists p; auto).
      rewrite Ht, Hp, Hr in Hb. simpl in Hb. rewrite String.eqb_refl in Hb.
      discriminate.
  - split.
    + intros (r & p & H & _). discriminate.
    + intros _. apply opt_field_set_or_keep.
Qed.

(** The enrichment touches the two flags only. *)
Lemma enriched_other_fields (svc : Services) (uid : JsVal) (data : Data.t) :
  let d := enriched svc uid data in
  Data.firebaseId d = Data.firebaseId data /\ Data.phone d = Data.phone data
  /\ Data.email d = Data.email data /\ Data.voterId d = Data.voterId data
  /\ Data.location d = Data.location data
  /\ Data.dateOfBirth d = Data.dateOfBirth data /\ Data.gender d = Data.gender data
  /\ Data.activeSockets d = Data.activeSockets data
  /\ Data.ipGeo d = Data.ipGeo data /\ Data.lastIp d = Data.lastIp data.
Proof.
  unfold enriched. destruct (getUser svc uid) as [r|]; [|repeat split].
  cbv zeta.
  destruct (truthy (Data.email data) && fb_emailVerified r);
    cbn [Data.phone Data.set_emailVerified];
    destruct (truthy (Data.phone data) && loose_eq (fb_phoneNumber r) (Data.phone data));
    repeat split.
Qed.

Lemma enriched_patch_applied (svc : Services) (uid : JsVal) (data : Data.t) (u : User.t) :
  patch_applied svc uid data u (apply_set (enriched svc uid data) u).
Proof.
  destruct (enriched_other_fields svc uid data)
    as (H1 & H2 & H3 & H4 & H5 & H6 & H7 & H8 & H9 & H10).
  unfold patch_applied, apply_set.
  cbn [User._id User.firebaseId User.phone User.email User.voterId User.emailVerified
       User.phoneVerified User.location User.dateOfBirth User.gender
       User.activeSockets User.platformOnline User.ipGeo User.lastIp].
  rewrite H1, H2, H3, H4, H5, H6, H7, H8, H9, H10.
  repeat match goal with
         | |- _ /\ _ => split
         | |- field_set _ _ (or_keep _ _) => apply field_set_or_keep
         | |- opt_field_set _ _ (opt_or_keep _ _) => apply opt_field_set_or_keep
         | |- flag_set (email_confirmed _ _ _) _ _ _ => apply enriched_emailVerified
         | |- flag_set (phone_confirmed _ _ _) _ _ _ => apply enriched_phoneVerified
         end; try reflexivity.
  - intros H. now rewrite H.
  - intros l H. now rewrite H.
Qed.

(** C4. [update] raises the not-found error exactly when no user matches
    the query, and raises nothing else; when a record matches, the first
    such record is returned and replaced by itself with the patch applied,
    every other record staying as it was.  Applied means, field by field:
    a key the patch has takes the patch's value, a key it lacks keeps the
    record's, and a verified flag is [true] when the provider confirms,
    whatever the patch says about it. *)
Theorem update_not_found_iff (svc : Services) (q : Filter) (data : Data.t) (w : World) :
  let w' := fst (update svc q data w) in
  let r := snd (update svc q data w) in
  (r = Throw (ForbiddenException not_exists_msg) <-> none_match q (users w))
  /\ (forall e, r = Throw e -> e = ForbiddenException not_exists_msg)
  /\ (none_match q (users w) -> users w' = users w)
  /\ (forall pre u post,
        users w = pre ++ u :: post -> none_match q pre -> matches q u = true ->
        exists u',
          r = Ok u /\ users w' = pre ++ u' :: post
          /\ patch_applied svc (query_firebaseId q) data u u').
Proof.
  intros w' r. subst w' r. rewrite update_run. cbn [fst snd users].
  repeat split.
  - intros H. apply none_match_forallb. rewrite find_existsb.
    destruct (find (matches q) (users w)); [discriminate | reflexivity].
  - intros H. now rewrite (find_none q (users w) H).
  - intros e H. destruct (find (matches q) (users w)); [discriminate|].
    now injection H as <-.
  - intros H. now apply update_first_none.
  - intros pre u post Hw Hpre Hu. rewrite Hw.
    exists (apply_set (enriched svc (query_firebaseId q) data) u).
    rewrite (find_split q pre u post Hpre Hu).
    rewrite (update_first_split q _ pre u post Hpre Hu).
    split; [reflexivity|]. split; [reflexivity|]. apply enriched_patch_applied.
Qed.

(** The flag [update] stores for the first matching record, in general: it
    is raised whenever the patch has a non-empty email and the provider's
    record for [query.firebaseId] is flagged verified; the provider's own
    email is never read. *)
Lemma update_emailVerified_rule (svc : Services) (q : Filter) (data : Data.t) (w : World)
      (pre : list User.t) (u : User.t) (post : list User.t) :
  users w = pre ++ u :: post -> none_match q pre -> matches q u = true ->
  Data.emailVerified data = None ->
  exists u',
    users (fst (update svc q data w)) = pre ++ u' :: post
    /\ User.emailVerified u'
       = match getUser svc (query_firebaseId q) with
         | Some r =>
             if truthy (Data.email data) && fb_emailVerified r
             then Some true else User.emailVerified u
         | None => User.emailVerified u
         end.
Proof.
  intros Hw Hpre Hu Hnone. rewrite update_run. cbn [fst users]. rewrite Hw.
  rewrite (update_first_split q _ pre u post Hpre Hu).
  eexists. split; [reflexivity|]. unfold enriched. simpl.
  destruct (getUser svc (query_firebaseId q)) as [r|]; simpl.
  - destruct (truthy (Data.email data) && fb_emailVerified r); simpl;
      destruct (truthy (Data.phone data) && loose_eq (fb_phoneNumber r) (Data.phone data));
      simpl; rewrite ?Hnone; reflexivity.
  - now rewrite Hnone.
Qed.

(** C3, on the input where the claim and the method part.  The provider
    has verified ["old@example.com"] for account ["f1"]; the patch changes
    only the email, to ["new@example.com"]; the stored record ends up with
    the new email and [emailVerified] set. *)
Theorem update_flags_unverified_email :
  let provider := mkUserRecord (JStr "old@example.com") true JUndefined in
  let svc := firebase_only "f1" provider in
  let w := world_of [with_email 0 "f1" "old@example.com" None] in
  let w' := fst (update svc (FEq PfirebaseId (JStr "f1")) (email_patch "new@example.com") w) in
  loose_eq (fb_email provider) (Data.email (email_patch "new@example.com")) = false
  /\ users w' = [with_email 0 "f1" "new@example.com" (Some true)].
Proof. split; reflexivity. Qed.

(** ** getGeoByIp *)

(** Once the lookup has answered, a run of [getGeoByIp] is its write
    followed by civic queries only; a foreign country and an unmatched city
    both answer the empty location. *)
Lemma getGeoByIp_run (svc : Services) (ip : string) (userId : JsVal)
      (geo : Geo) (w : World) :
  httpGet svc (ipinfo_url ip) = Some geo ->
  exists civ r,
    getGeoByIp svc ip userId w
    = (mkWorld (geo_users ip userId geo (users w)) (sessions w) (nextId w)
         (trace w ++ geo_calls ip userId geo ++ civ), r)
    /\ forallb is_civic civ = true
    /\ (loose_eq_str (country geo) "IN" = false -> civ = [] /\ r = Ok emptyLocation)
    /\ (assemblyFindOne svc (city geo) = None -> r = Ok emptyLocation).
Proof.
  intros Hgeo.
  unfold getGeoByIp, geo_users, geo_calls, httpService_get,
    assemblyConstituencyService_findOne, parliamentaryConstituencyService_findOne,
    districtService_findOne, stateService_findOne, userModel_updateOne,
    lift_option, bind, log, logged, get_users, put_users, ret, throw.
  rewrite Hgeo. cbn [users sessions nextId trace].
  destruct (truthy userId); cbn [users sessions nextId trace];
    (destruct (loose_eq_str (country geo) "IN"); cbn [negb];
     [ destruct (assemblyFindOne svc (city geo)) as [a|] eqn:Ha;
       cbn [users sessions nextId trace];
       [ destruct (districtFindOne svc (ac_district a)) as [d|] eqn:Hd;
         cbn [users sessions nextId trace];
         [ exists [EAssemblyFindOne (city geo);
                   EParliamentaryFindOne (ac_parliamentaryConstituency a);
                   EDistrictFindOne (ac_district a);
                   EStateFindOne (d_state d)]
         | exists [EAssemblyFindOne (city geo);
                   EParliamentaryFindOne (ac_parliamentaryConstituency a);
                   EDistrictFindOne (ac_district a)] ]
       | exists [EAssemblyFindOne (city geo)] ]
     | exists [] ]);
    eexists; (split; [repeat rewrite <- app_assoc; reflexivity |]);
    (split; [reflexivity |]); split; intros H; try discriminate; auto.
Qed.

(** A lookup that rejects ends the call before anything is written. *)
Lemma getGeoByIp_lookup_fails (svc : Services) (ip : string) (userId : JsVal) (w : World) :
  httpGet svc (ipinfo_url ip) = None ->
  getGeoByIp svc ip userId w = (logged (EHttpGet (ipinfo_url ip)) w, Throw HttpError).
Proof.
  intros H. unfold getGeoByIp, httpService_get. autounfold with run.
  now rewrite H.
Qed.

(** C6. When the lookup answers a country other than ["IN"], [getGeoByIp]
    returns the empty location without raising, and none of the calls it
    issues is a query against a civic-hierarchy store. *)
Theorem getGeoByIp_foreign_country (svc : Services) (ip : string) (userId : JsVal)
        (geo : Geo) (w : World) :
  httpGet svc (ipinfo_url ip) = Some geo ->
  loose_eq_str (country geo) "IN" = false ->
  snd (getGeoByIp svc ip userId w) = Ok emptyLocation
  /\ exists calls,
       trace (fst (getGeoByIp svc ip userId w)) = trace w ++ calls
       /\ forallb (fun e => negb (is_civic e)) calls = true.
Proof.
  intros Hgeo Hc.
  destruct (getGeoByIp_run svc ip userId geo w Hgeo) as (civ & r & Hrun & _ & Hf & _).
  destruct (Hf Hc) as [-> ->]. rewrite Hrun. cbn [fst snd trace].
  split; [reflexivity|]. exists (geo_calls ip userId geo). split.
  - now rewrite app_nil_r.
  - unfold geo_calls. destruct (truthy userId); reflexivity.
Qed.

(** C7. With a provided [userId], once the lookup has answered,
    [getGeoByIp] writes the raw geo string and the IP to the first record
    whose [firebaseId] is that id, and to no other field and no other
    record: the write is the call right after the lookup, every later call
    is a civic query, and the collection ends up the same whatever the
    country and whatever civic resolution finds or returns. *)
Theorem getGeoByIp_records_geo (svc : Services) (ip : string) (userId : JsVal)
        (geo : Geo) (w : World) :
  httpGet svc (ipinfo_url ip) = Some geo ->
  truthy userId = true ->
  let w' := fst (getGeoByIp svc ip userId w) in
  users w' = update_first (FEq PfirebaseId userId) (USet (geo_patch geo ip)) (users w)
  /\ (exists civ,
        trace w' = trace w ++
                   [EHttpGet (ipinfo_url ip);
                    EUserUpdateOne (FEq PfirebaseId userId) (USet (geo_patch geo ip))] ++ civ
        /\ forallb is_civic civ = true)
  /\ (forall pre u post,
        users w = pre ++ u :: post ->
        none_match (FEq PfirebaseId userId) pre ->
        User.firebaseId u = userId ->
        exists u',
          users w' = pre ++ u' :: post
          /\ User.ipGeo u'
             = JStr ("India, " ++ template (region geo) ++ ", "
                     ++ template (city geo))%string
          /\ User.lastIp u' = JStr ip
          /\ without_geo u' = without_geo u)
  /\ (none_match (FEq PfirebaseId userId) (users w) -> users w' = users w).
Proof.
  intros Hgeo Hid w'. subst w'.
  destruct (getGeoByIp_run svc ip userId geo w Hgeo) as (civ & r & Hrun & Hciv & _).
  rewrite Hrun. cbn [fst users trace]. unfold geo_users, geo_calls. rewrite Hid.
  split; [reflexivity|]. split; [|split].
  - exists civ. split; [reflexivity | exact Hciv].
  - intros pre u post Hw Hpre Hu. rewrite Hw.
    assert (Hm : matches (FEq PfirebaseId userId) u = true).
    { apply truthy_spec in Hid as (s & _ & ->). simpl. rewrite Hu.
      apply String.eqb_refl. }
    rewrite (update_first_split _ _ pre u post Hpre Hm).
    eexists. split; [reflexivity|]. repeat split.
  - intros Hnone. now apply update_first_none.
Qed.

(** C7, as stated for every IP, fails.  For an address whose lookup
    rejects, the call ends with that error before its write: the record of
    the provided [userId] receives neither a geo string nor the IP. *)
Lemma getGeoByIp_rejected_lookup_writes_nothing :
  let w := world_of [blank_user 0 "f1"] in
  let run := getGeoByIp all_down "8.8.8.8" (JStr "f1") w in
  truthy (JStr "f1") = true
  /\ snd run = Throw HttpError
  /\ users (fst run) = [blank_user 0 "f1"]
  /\ map User.ipGeo (users (fst run)) = [JUndefined]
  /\ map User.lastIp (users (fst run)) = [JUndefined]
  /\ trace (fst run) = [EHttpGet (ipinfo_url "8.8.8.8")].
Proof. repeat split. Qed.

Lemma prefix_empty (s : string) : String.prefix "" s = true.
Proof. destruct s; reflexivity. Qed.

(** C10. The geo string [getGeoByIp] stores for a provided [userId] is
    ["India, "], the provider's region, [", "] and the provider's city; the
    country the provider resolved does not enter it. *)
Theorem getGeoByIp_geo_string (svc : Services) (ip : string) (userId : JsVal)
        (geo : Geo) (w : World) (pre : list User.t) (u : User.t) (post : list User.t) :
  httpGet svc (ipinfo_url ip) = Some geo ->
  truthy userId = true ->
  users w = pre ++ u :: post ->
  none_match (FEq PfirebaseId userId) pre ->
  User.firebaseId u = userId ->
  exists u',
    users (fst (getGeoByIp svc ip userId w)) = pre ++ u' :: post
    /\ User.ipGeo u'
       = JStr (india_prefix ++ template (region geo) ++ ", " ++ template (city geo))%string
    /\ String.prefix india_prefix (template (User.ipGeo u')) = true
    /\ forall c, ipGeo_string (mkGeo c (region geo) (city geo)) = template (User.ipGeo u').
Proof.
  intros Hgeo Hid Hw Hpre Hu.
  destruct (getGeoByIp_run svc ip userId geo w Hgeo) as (civ & r & Hrun & _).
  rewrite Hrun. cbn [fst users]. unfold geo_users. rewrite Hid, Hw.
  assert (Hm : matches (FEq PfirebaseId userId) u = true).
  { apply truthy_spec in Hid as (s & _ & ->). simpl. rewrite Hu.
    apply String.eqb_refl. }
  rewrite (update_first_split _ _ pre u post Hpre Hm).
  eexists. split; [reflexivity|]. split; [reflexivity|].
  split; [unfold india_prefix; cbn; apply prefix_empty | intros c; reflexivity].
Qed.

(** ** connected / disconnected *)

Lemma connected_missing_id (now : Z) (data : ConnectData) (w : World) :
  cd_socketid data = ""%string \/ cd_user data = ""%string ->
  connected now data w = (w, Ok tt).
Proof.
  intros H. unfold connected.
  assert (E : String.eqb (cd_socketid data) "" || String.eqb (cd_user data) "" = true).
  { apply orb_true_iff. destruct H as [H|H]; rewrite H; auto. }
  now rewrite E.
Qed.

Lemma connected_run (now : Z) (data : ConnectData) (w : World) :
  cd_socketid data <> ""%string -> cd_user data <> ""%string ->
  let q := FEq PfirebaseId (JStr (cd_user data)) in
  let upd := UPushInc (socket_of now data) (cd_platform data) in
  let us := update_first q upd (users w) in
  connected now data w
  = (mkWorld us (sessions w ++ [session_of now data us]) (nextId w)
       (trace w ++ [EUserUpdateOne q upd; EUserFindOne q;
                    ESessionCreate (session_of now data us)]),
     Ok tt).
Proof.
  intros Hs Hu q upd us. unfold connected.
  apply String.eqb_neq in Hs, Hu. rewrite Hs, Hu. cbn [orb].
  unfold userModel_updateOne, userModel_findOne, userSessionModel_create, detached,
    bind, log, logged, get_users, put_users, ret.
  cbn [fst snd users sessions nextId trace].
  repeat rewrite <- app_assoc. reflexivity.
Qed.

Lemma disconnected_run (socketid : string) (w : World) :
  disconnected socketid w
  = (mkWorld (update_first (FSocketId socketid) (UPullSocket socketid) (users w))
       (sessions w) (nextId w)
       (trace w ++ [EUserUpdateOne (FSocketId socketid) (UPullSocket socketid)]),
     Ok tt).
Proof. reflexivity. Qed.

Lemma pull_socket_clears (s : string) (l : list ActiveSocket) :
  existsb (fun a => String.eqb (socketid a) s) (pull_socket s l) = false.
Proof.
  unfold pull_socket. induction l as [|a l IH]; simpl; [reflexivity|].
  destruct (String.eqb (socketid a) s) eqn:E; simpl; [exact IH|].
  now rewrite E.
Qed.

Lemma pull_socket_pushed (s : string) (p : Platform) (t : Z) (l : list ActiveSocket) :
  pull_socket s (l ++ [mkActiveSocket s p t]) = pull_socket s l.
Proof.
  unfold pull_socket. rewrite filter_app. simpl.
  rewrite String.eqb_refl. simpl. apply app_nil_r.
Qed.

Lemma online_inc (po : PlatformOnline) (p : Platform) :
  online (inc_online po p) p = bumped (online po p).
Proof. destruct p; reflexivity. Qed.

(** C9. A [connected] call with non-empty user and socket ids appends one
    session even when no user document has that [firebaseId]: the call
    raises nothing, the user collection is untouched, and the stored
    session carries the call's ids, platform and time with its [state]
    absent. *)
Theorem connected_logs_session_without_user (now : Z) (data : ConnectData) (w : World) :
  cd_socketid data <> ""%string ->
  cd_user data <> ""%string ->
  none_match (FEq PfirebaseId (JStr (cd_user data))) (users w) ->
  let w' := fst (connected now data w) in
  snd (connected now data w) = Ok tt
  /\ users w' = users w
  /\ sessions w'
     = sessions w ++
       [mkUserSession (cd_user data) (cd_socketid data) (cd_platform data) now None].
Proof.
  intros Hs Hu Hnone w'. subst w'. rewrite (connected_run now data w Hs Hu).
  cbn [fst snd users sessions]. unfold session_of.
  rewrite (update_first_none _ _ _ Hnone), (find_none _ _ Hnone).
  repeat split.
Qed.

Lemma update_first_skip (q : Filter) (upd : Update)
      (pre : list User.t) (u : User.t) (post : list User.t) :
  none_match q pre -> matches q u = false ->
  update_first q upd (pre ++ u :: post) = pre ++ u :: update_first q upd post.
Proof.
  intros Hpre Hu. induction pre as [|v pre IH]; simpl.
  - now rewrite Hu.
  - rewrite (Hpre v (or_introl eq_refl)). f_equal. apply IH.
    intros x Hx. apply Hpre. now right.
Qed.

Lemma nth_error_middle {A} (pre : list A) (x : A) (post : list A) :
  nth_error (pre ++ x :: post) (List.length pre) = Some x.
Proof. induction pre as [|a pre IH]; simpl; [reflexivity | exact IH]. Qed.

(** A pull leaves every record in its place, with its counters and its
    identity. *)
Lemma update_first_pull_nth (s : string) (us : list User.t) (n : nat) (u : User.t) :
  nth_error us n = Some u ->
  exists u',
    nth_error (update_first (FSocketId s) (UPullSocket s) us) n = Some u'
    /\ User._id u' = User._id u
    /\ User.firebaseId u' = User.firebaseId u
    /\ User.platformOnline u' = User.platformOnline u.
Proof.
  revert n. induction us as [|v us IH]; intros n Hn.
  - destruct n; discriminate.
  - cbn [update_first]. destruct (matches (FSocketId s) v) eqn:Hv.
    + destruct n as [|n]; simpl in *.
      * injection Hn as <-. eexists. split; [reflexivity|]. repeat split.
      * exists u. repeat split. exact Hn.
    + destruct n as [|n]; simpl in *.
      * injection Hn as <-. exists v. repeat split.
      * apply IH. exact Hn.
Qed.

(** C8. Let [u] be the first record whose [firebaseId] is the connecting
    user.  After [connected] followed at once by [disconnected] with the
    same socket id, the record in [u]'s place is still that user's, and
    its counters are those [connected] left: the disconnect lowers
    nothing, so for non-empty ids the platform's counter keeps the
    increment.  If moreover no record before [u] in store order holds an
    entry with the socket id, that record is left without an entry for
    it. *)
Theorem connect_then_disconnect (now : Z) (data : ConnectData) (w : World)
        (pre : list User.t) (u : User.t) (post : list User.t) :
  users w = pre ++ u :: post ->
  none_match (FEq PfirebaseId (JStr (cd_user data))) pre ->
  User.firebaseId u = JStr (cd_user data) ->
  let w1 := fst (connected now data w) in
  let w2 := fst (disconnected (cd_socketid data) w1) in
  exists u1 u2,
    nth_error (users w1) (List.length pre) = Some u1
    /\ nth_error (users w2) (List.length pre) = Some u2
    /\ User._id u2 = User._id u
    /\ User.firebaseId u2 = User.firebaseId u
    /\ User.platformOnline u2 = User.platformOnline u1
    /\ (cd_socketid data <> ""%string -> cd_user data <> ""%string ->
        online (User.platformOnline u2) (cd_platform data)
        = bumped (online (User.platformOnline u) (cd_platform data)))
    /\ (none_match (FSocketId (cd_socketid data)) pre ->
        holds_socket (cd_socketid data) u2 = false).
Proof.
  intros Hw Hpre Hfid w1 w2.
  assert (Hm : matches (FEq PfirebaseId (JStr (cd_user data))) u = true).
  { simpl. rewrite Hfid. apply String.eqb_refl. }
  (* the record in [u]'s place after the connect *)
  assert (H1 : exists u1,
             users w1 = pre ++ u1 :: post
             /\ User._id u1 = User._id u
             /\ User.firebaseId u1 = User.firebaseId u
             /\ (cd_socketid data <> ""%string -> cd_user data <> ""%string ->
                 online (User.platformOnline u1) (cd_platform data)
                 = bumped (online (User.platformOnline u) (cd_platform data)))).
  { subst w1.
    destruct (String.eqb_spec (cd_socketid data) "") as [Es|Es];
      [| destruct (String.eqb_spec (cd_user data) "") as [Eu|Eu]].
    - rewrite (connected_missing_id now data w (or_introl Es)). exists u.
      repeat split; auto. intros H. contradiction.
    - rewrite (connected_missing_id now data w (or_intror Eu)). exists u.
      repeat split; auto. intros _ H. contradiction.
    - rewrite (connected_run now data w Es Eu). cbn [fst users].
      rewrite Hw, (update_first_split _ _ pre u post Hpre Hm).
      eexists. split; [reflexivity|]. repeat split. intros _ _. apply online_inc. }
  destruct H1 as (u1 & Hw1 & Hid1 & Hfid1 & Hinc).
  assert (Hn1 : nth_error (users w1) (List.length pre) = Some u1).
  { rewrite Hw1. apply nth_error_middle. }
  destruct (update_first_pull_nth (cd_socketid data) _ _ _ Hn1)
    as (u2 & Hn2 & Hid2 & Hfid2 & Hpo).
  exists u1, u2. subst w2. rewrite disconnected_run. cbn [fst users].
  split; [exact Hn1|]. split; [exact Hn2|].
  split; [congruence|]. split; [congruence|]. split; [exact Hpo|]. split.
  - intros Es Eu. rewrite Hpo. now apply Hinc.
  - intros Hsock. rewrite Hw1 in Hn2.
    destruct (matches (FSocketId (cd_socketid data)) u1) eqn:Hh.
    + rewrite (update_first_split _ _ pre u1 post Hsock Hh), nth_error_middle in Hn2.
      injection Hn2 as <-. simpl. apply pull_socket_clears.
    + rewrite (update_first_skip _ _ pre u1 post Hsock Hh), nth_error_middle in Hn2.
      injection Hn2 as <-. exact Hh.
Qed.

(** C8, as stated, fails.  Two records, the same socket id connected first
    for ["uA"] and then for ["uB"]: the disconnect right after the second
    connect pulls the entry from ["uA"], the first record holding it, and
    ["uB"] keeps its entry for the socket id. *)
Lemma connect_then_disconnect_other_holder :
  let w0 := world_of [blank_user 0 "uA"; blank_user 1 "uB"] in
  let w1 := fst (connected 1 (mkConnectData "uA" "s1" web) w0) in
  let w2 := fst (connected 2 (mkConnectData "uB" "s1" app) w1) in
  let w3 := fst (disconnected "s1" w2) in
  users w3
  = [with_sockets 0 "uA" [] (mkPlatformOnline None (Some 1%Z) None);
     with_sockets 1 "uB" [mkActiveSocket "s1" app 2] (mkPlatformOnline (Some 1%Z) None None)]
  /\ existsb (fun u => JsVal_eqb (User.firebaseId u) (JStr "uB") && holds_socket "s1" u)
       (users w3) = true.
Proof. split; reflexivity. Qed.

(** ** Instances *)

Lemma getGeoByIp_foreign_country_witness :
  snd (getGeoByIp (geo_only california) "8.8.8.8" (JStr "f1") (world_of [blank_user 0 "f1"]))
  = Ok emptyLocation
  /\ exists calls,
       trace (fst (getGeoByIp (geo_only california) "8.8.8.8" (JStr "f1")
                     (world_of [blank_user 0 "f1"])))
       = trace (world_of [blank_user 0 "f1"]) ++ calls
       /\ forallb (fun e => negb (is_civic e)) calls = true.
Proof.
  apply (getGeoByIp_foreign_country (geo_only california) "8.8.8.8" (JStr "f1")
           california (world_of [blank_user 0 "f1"])); reflexivity.
Defined.

Lemma getGeoByIp_records_geo_witness :
  exists u',
    users (fst (getGeoByIp (geo_only california) "8.8.8.8" (JStr "f1")
                  (world_of [blank_user 0 "f0"; blank_user 1 "f1"])))
    = [blank_user 0 "f0"] ++ u' :: []
    /\ User.ipGeo u' = JStr "India, California, Mountain View"
    /\ User.lastIp u' = JStr "8.8.8.8"
    /\ without_geo u' = without_geo (blank_user 1 "f1").
Proof.
  destruct (getGeoByIp_records_geo (geo_only california) "8.8.8.8" (JStr "f1")
              california (world_of [blank_user 0 "f0"; blank_user 1 "f1"])
              eq_refl eq_refl) as (_ & _ & H & _).
  apply (H [blank_user 0 "f0"] (blank_user 1 "f1") []).
  - reflexivity.
  - intros v [<-|[]]. reflexivity.
  - reflexivity.
Defined.

Lemma getGeoByIp_geo_string_witness :
  exists u',
    users (fst (getGeoByIp (geo_only california) "8.8.8.8" (JStr "f1")
                  (world_of [blank_user 0 "f0"; blank_user 1 "f1"])))
    = [blank_user 0 "f0"] ++ u' :: []
    /\ User.ipGeo u'
       = JStr (india_prefix ++ template (region california) ++ ", "
               ++ template (city california))%string
    /\ String.prefix india_prefix (template (User.ipGeo u')) = true
    /\ forall c,
         ipGeo_string (mkGeo c (region california) (city california))
         = template (User.ipGeo u').
Proof.
  apply (getGeoByIp_geo_string (geo_only california) "8.8.8.8" (JStr "f1")
           california (world_of [blank_user 0 "f0"; blank_user 1 "f1"])
           [blank_user 0 "f0"] (blank_user 1 "f1") []).
  - reflexivity.
  - reflexivity.
  - reflexivity.
  - intros v [<-|[]]. reflexivity.
  - reflexivity.
Defined.

Lemma connected_logs_session_without_user_witness :
  snd (connected 7 (mkConnectData "u1" "s1" app) (world_of [blank_user 0 "u0"])) = Ok tt
  /\ users (fst (connected 7 (mkConnectData "u1" "s1" app) (world_of [blank_user 0 "u0"])))
     = [blank_user 0 "u0"]
  /\ sessions (fst (connected 7 (mkConnectData "u1" "s1" app) (world_of [blank_user 0 "u0"])))
     = [] ++ [mkUserSession "u1" "s1" app 7 None].
Proof.
  apply (connected_logs_session_without_user 7 (mkConnectData "u1" "s1" app)
           (world_of [blank_user 0 "u0"])).
  - discriminate.
  - discriminate.
  - intros v [<-|[]]. reflexivity.
Defined.

Lemma connect_then_disconnect_witness :
  exists u2,
    nth_error
      (users (fst (disconnected "s1"
                     (fst (connected 7 (mkConnectData "u1" "s1" app)
                             (world_of [with_sockets 0 "u0" [mkActiveSocket "s0" web 3]
                                          noPlatformOnline;
                                        blank_user 1 "u1"])))))) 1
    = Some u2
    /\ User.firebaseId u2 = JStr "u1"
    /\ online (User.platformOnline u2) app = Some 1%Z
    /\ holds_socket "s1" u2 = false.
Proof.
  destruct (connect_then_disconnect 7 (mkConnectData "u1" "s1" app)
              (world_of [with_sockets 0 "u0" [mkActiveSocket "s0" web 3] noPlatformOnline;
                         blank_user 1 "u1"])
              [with_sockets 0 "u0" [mkActiveSocket "s0" web 3] noPlatformOnline]
              (blank_user 1 "u1") [] eq_refl
              (fun v H => match H with
                          | or_introl E => match E with eq_refl => eq_refl end
                          | or_intror F => match F with end
                          end)
              eq_refl)
    as (u1 & u2 & _ & Hn & _ & Hf & _ & Hc & Hs).
  exists u2. split; [exact Hn|]. split; [exact Hf|]. split.
  - apply Hc; discriminate.
  - apply Hs. intros v [<-|[]]. reflexivity.
Defined.

(** * Further properties of the service *)

(** ** create, continued *)

Lemma nonempty_match_sym (a b : JsVal) : nonempty_match a b -> nonempty_match b a.
Proof. intros (s & H & -> & ->). exists s. auto. Qed.

Lemma eq_match_refl (v : JsVal) : eq_match v v = true.
Proof. destruct v; simpl; auto. apply String.eqb_refl. Qed.

Lemma ForallOrdPairs_snoc {A} (R : A -> A -> Prop) (l : list A) (x : A) :
  ForallOrdPairs R l -> Forall (fun a => R a x) l -> ForallOrdPairs R (l ++ [x]).
Proof.
  induction 1 as [|a l Ha Hl IH]; intros Hx; simpl.
  - constructor; constructor.
  - inversion Hx; subst. constructor.
    + apply Forall_app. split; auto.
    + apply IH. assumption.
Qed.

(** When neither check of [create] fires, the new record shares no
    credential and no [firebaseId] with a stored one. *)
Lemma create_checks_passed (data : Data.t) (us : list User.t) (i : ObjectId) :
  firebaseId_taken (Data.firebaseId data) us = false ->
  reports_match (credentials_of data) us = false ->
  Forall (fun v =>
            ~ shares_credential v (new_user i (Data.set_activeSockets [] data))
            /\ eq_match (Data.firebaseId data) (User.firebaseId v) = false) us.
Proof.
  intros Ht Hc. apply Forall_forall. intros v Hv.
  apply none_match_forallb in Ht. specialize (Ht v Hv). simpl in Ht.
  split; [|exact Ht].
  intros Hs.
  assert (Hm : matches (credentials_query (credentials_of data)) v = true).
  { apply credentials_query_spec. split.
    - intros [[Htr He] | Hid]; [|discriminate].
      simpl in He. rewrite He, eq_match_refl in Ht. discriminate.
    - unfold collides. simpl.
      destruct Hs as [H|[H|H]]; apply nonempty_match_sym in H; auto. }
  unfold reports_match in Hc. apply none_match_forallb in Hc.
  rewrite (Hc v Hv) in Hm. discriminate.
Qed.

Lemma bind_ok {A B} (c : M A) (k : A -> M B) (w : World) (a : A) :
  snd (c w) = Ok a -> bind c k w = k a (fst (c w)).
Proof. unfold bind. destruct (c w) as [w' r]. simpl. now intros ->. Qed.

Lemma create_phases (svc : Services) (data : Data.t) (w : World) :
  create svc data w = (create_checks data ;;; create_insert svc data) w.
Proof.
  unfold create, create_checks, create_insert, checkCredentials, userModel_exists.
  autounfold with run. unfold logged. cbn [fst snd users sessions nextId trace].
  destruct (existsb (matches (FEq PfirebaseId (Data.firebaseId data))) (users w));
    [reflexivity|].
  cbn [fst snd users sessions nextId trace].
  destruct (existsb (matches (credentials_query (credentials_of data))) (users w));
    reflexivity.
Qed.

Lemma create_checks_pass (data : Data.t) (w : World) :
  firebaseId_taken (Data.firebaseId data) (users w) = false ->
  reports_match (credentials_of data) (users w) = false ->
  snd (create_checks data w) = Ok tt
  /\ users (fst (create_checks data w)) = users w
  /\ nextId (fst (create_checks data w)) = nextId w.
Proof.
  unfold firebaseId_taken, reports_match. intros Ht Hc.
  unfold create_checks, checkCredentials, userModel_exists.
  autounfold with run. unfold logged. cbn [fst snd users sessions nextId trace].
  rewrite Ht. cbn [fst snd users sessions nextId trace]. rewrite Hc.
  repeat split.
Qed.

Lemma create_insert_run (svc : Services) (data : Data.t) (w : World) :
  let u := new_user (nextId w) (Data.set_activeSockets [] data) in
  snd (create_insert svc data w) = Ok u
  /\ users (fst (create_insert svc data w)) = users w ++ [u]
  /\ nextId (fst (create_insert svc data w)) = S (nextId w).
Proof.
  unfold create_insert, firebase_setCustomUserClaims, enrich, firebase_getUser,
    userModel_create.
  autounfold with run. unfold logged. cbn.
  destruct (setCustomUserClaims svc _ _), (getUser svc _); cbn; repeat split.
Qed.

Lemma ForallOrdPairs_last_two {A} (R : A -> A -> Prop) (l : list A) (a b : A) :
  ForallOrdPairs R (l ++ [a; b]) -> R a b.
Proof.
  induction l as [|x l IH]; simpl; intros H; inversion H; subst.
  - match goal with Hf : Forall _ [b] |- _ => now inversion Hf end.
  - now apply IH.
Qed.

(** X1. Run on its own -- no other write between its first check and
    its insert -- [create] keeps the collection free of duplicates: if no
    two stored users share a non-empty phone, email or voterId, and none
    carries another's [firebaseId], the same is true after the call,
    whether it inserted or failed.  The checks do not hold across the
    awaits: when two calls that repeat a non-empty phone, email or voterId
    both run their checks before either inserts, both insert, and the
    collection ends with two records sharing the credential. *)
Theorem create_keeps_unique (svc : Services) (data : Data.t) (w : World) :
  create svc data w = (create_checks data ;;; create_insert svc data) w
  /\ (credentials_unique (users w) ->
   firebaseIds_unique (users w) ->
   credentials_unique (users (fst (create svc data w)))
      /\ firebaseIds_unique (users (fst (create svc data w))))
  /\ (forall svc' data',
        firebaseId_taken (Data.firebaseId data) (users w) = false ->
        reports_match (credentials_of data) (users w) = false ->
        firebaseId_taken (Data.firebaseId data') (users w) = false ->
        reports_match (credentials_of data') (users w) = false ->
        nonempty_match (Data.phone data) (Data.phone data')
        \/ nonempty_match (Data.email data) (Data.email data')
        \/ nonempty_match (Data.voterId data) (Data.voterId data') ->
        let run := create_interleaved svc svc' data data' w in
        let u := new_user (nextId w) (Data.set_activeSockets [] data) in
        let u' := new_user (S (nextId w)) (Data.set_activeSockets [] data') in
        snd run = Ok (u, u')
        /\ users (fst run) = users w ++ [u; u']
        /\ shares_credential u u'
        /\ ~ credentials_unique (users (fst run))).
Proof.
  split; [apply create_phases|]. split.
  - intros Hc Hf. rewrite create_run.
    destruct (firebaseId_taken (Data.firebaseId data) (users w)) eqn:Ht;
      [split; assumption|].
    destruct (reports_match (credentials_of data) (users w)) eqn:Hm;
      [split; assumption|].
    cbn [fst users].
    pose proof (create_checks_passed data (users w) (nextId w) Ht Hm) as Hall.
    split; apply ForallOrdPairs_snoc; auto;
      eapply Forall_impl; [| exact Hall | | exact Hall]; simpl; tauto.
  - intros svc' data' Ht Hm Ht' Hm' Hshare run u u'.
    assert (Hrun : snd run = Ok (u, u') /\ users (fst run) = users w ++ [u; u']).
    { subst run. unfold create_interleaved.
      destruct (create_checks_pass data w Ht Hm) as (R1 & U1 & N1).
      rewrite (bind_ok _ _ w tt R1).
      set (w1 := fst (create_checks data w)) in *.
      rewrite <- U1 in Ht', Hm'.
      destruct (create_checks_pass data' w1 Ht' Hm') as (R2 & U2 & N2).
      rewrite (bind_ok _ _ w1 tt R2).
      set (w2 := fst (create_checks data' w1)) in *.
      destruct (create_insert_run svc data w2) as (R3 & U3 & N3).
      rewrite (bind_ok _ _ w2 _ R3).
      set (w3 := fst (create_insert svc data w2)) in *.
      destruct (create_insert_run svc' data' w3) as (R4 & U4 & N4).
      rewrite (bind_ok _ _ w3 _ R4).
      unfold ret. cbn [fst snd].
      subst u u'. rewrite U4, U3, U2, U1, N3, N2, N1, <- app_assoc.
      split; reflexivity. }
    destruct Hrun as [Hr Hu]. split; [exact Hr|]. split; [exact Hu|].
    assert (Hs : shares_credential u u') by exact Hshare.
    split; [exact Hs|].
    rewrite Hu. intros Huniq.
    exact (ForallOrdPairs_last_two _ _ _ _ Huniq Hs).
Qed.

(** X2. What [create] returns and what it stores do not depend on the
    identity provider: the verified flags it computes from the provider's
    record are put on [data] after the insert, so the stored record keeps
    the flags the payload came with. *)
Theorem create_ignores_provider (svc svc' : Services) (data : Data.t) (w : World) :
  snd (create svc data w) = snd (create svc' data w)
  /\ users (fst (create svc data w)) = users (fst (create svc' data w))
  /\ forall u, snd (create svc data w) = Ok u ->
       User.emailVerified u = Data.emailVerified data
       /\ User.phoneVerified u = Data.phoneVerified data.
Proof.
  rewrite !create_run.
  destruct (firebaseId_taken (Data.firebaseId data) (users w));
    [| destruct (reports_match (credentials_of data) (users w))];
    cbn [fst snd]; (split; [reflexivity | split; [reflexivity |]]);
    intros u H; try discriminate.
  injection H as <-. split; reflexivity.
Qed.

(** X3. Once [create] has inserted an account, a later [create] whose
    payload repeats one of its non-empty phone, email or voterId is
    refused with a bad-request error and inserts nothing, whatever its
    [firebaseId] and whatever the provider. *)
Theorem create_twice_refused (svc svc' : Services) (data data' : Data.t) (w : World) :
  firebaseId_taken (Data.firebaseId data) (users w) = false ->
  reports_match (credentials_of data) (users w) = false ->
  nonempty_match (Data.phone data') (Data.phone data)
  \/ nonempty_match (Data.email data') (Data.email data)
  \/ nonempty_match (Data.voterId data') (Data.voterId data) ->
  let w1 := fst (create svc data w) in
  exists msg,
    snd (create svc' data' w1) = Throw (BadRequestException msg)
    /\ users (fst (create svc' data' w1)) = users w1.
Proof.
  intros Ht Hm Hsame w1. subst w1. rewrite (create_run svc data w), Ht, Hm.
  cbn [fst]. rewrite create_run. cbn [users].
  set (u := new_user (nextId w) (Data.set_activeSockets [] data)).
  destruct (firebaseId_taken (Data.firebaseId data') (users w ++ [u])) eqn:Ht';
    [eexists; split; reflexivity|].
  assert (Hu : matches (credentials_query (credentials_of data')) u = true).
  { apply credentials_query_spec. split.
    - intros [[_ He] | Hid]; [|discriminate].
      unfold firebaseId_taken in Ht'. rewrite existsb_app in Ht'.
      apply orb_false_iff in Ht' as [_ Ht']. simpl in Ht', He.
      rewrite He, eq_match_refl in Ht'. discriminate.
    - exact Hsame. }
  unfold reports_match. rewrite existsb_app. cbn [existsb]. rewrite Hu.
  rewrite orb_true_r. eexists; split; reflexivity.
Qed.

(** ** delete *)

Lemma delete_run (q : Filter) (w : World) :
  delete q w
  = (mkWorld (delete_first q (users w)) (sessions w) (nextId w) (trace w),
     Ok (if existsb (matches q) (users w) then 1 else 0)).
Proof. reflexivity. Qed.

Lemma delete_first_none (q : Filter) (us : list User.t) :
  none_match q us -> delete_first q us = us.
Proof.
  induction us as [|u us IH]; intros H; simpl; [reflexivity|].
  rewrite (H u (or_introl eq_refl)). f_equal. apply IH.
  intros v Hv. apply H. now right.
Qed.

Lemma delete_first_split (q : Filter) (pre : list User.t) (u : User.t)
      (post : list User.t) :
  none_match q pre -> matches q u = true ->
  delete_first q (pre ++ u :: post) = pre ++ post.
Proof.
  intros Hpre Hu. induction pre as [|v pre IH]; simpl.
  - now rewrite Hu.
  - rewrite (Hpre v (or_introl eq_refl)). f_equal. apply IH.
    intros x Hx. apply Hpre. now right.
Qed.

(** X4. [delete] removes the first record that matches the query and no
    other, answering a deleted count of 1; with no match it removes
    nothing and answers 0.  In both cases the sessions stay: nothing
    cascades to them. *)
Theorem delete_first_match (q : Filter) (w : World) :
  sessions (fst (delete q w)) = sessions w
  /\ (none_match q (users w) ->
      users (fst (delete q w)) = users w /\ snd (delete q w) = Ok 0)
  /\ (forall pre u post,
        users w = pre ++ u :: post -> none_match q pre -> matches q u = true ->
        users (fst (delete q w)) = pre ++ post /\ snd (delete q w) = Ok 1).
Proof.
  rewrite delete_run. cbn [fst snd users sessions]. split; [reflexivity|]. split.
  - intros H. rewrite (delete_first_none q _ H).
    apply none_match_forallb in H. now rewrite H.
  - intros pre u post Hw Hpre Hu. rewrite Hw.
    rewrite (delete_first_split q pre u post Hpre Hu).
    rewrite existsb_app. cbn [existsb]. rewrite Hu, orb_true_r. auto.
Qed.

(** X5. Creating an account and then deleting by its [firebaseId] gives
    back the user collection as it was before the creation. *)
Theorem create_then_delete (svc : Services) (data : Data.t) (w : World) :
  firebaseId_taken (Data.firebaseId data) (users w) = false ->
  reports_match (credentials_of data) (users w) = false ->
  let w1 := fst (create svc data w) in
  let w2 := fst (delete (FEq PfirebaseId (Data.firebaseId data)) w1) in
  snd (delete (FEq PfirebaseId (Data.firebaseId data)) w1) = Ok 1
  /\ users w2 = users w.
Proof.
  intros Ht Hm w1 w2. subst w2 w1. rewrite create_run, Ht, Hm. cbn [fst].
  rewrite delete_run. cbn [fst snd users].
  assert (Hnone : none_match (FEq PfirebaseId (Data.firebaseId data)) (users w)).
  { now apply none_match_forallb. }
  assert (Hu : matches (FEq PfirebaseId (Data.firebaseId data))
                 (new_user (nextId w) (Data.set_activeSockets [] data)) = true).
  { simpl. apply eq_match_refl. }
  rewrite (delete_first_split _ (users w) _ [] Hnone Hu).
  rewrite existsb_app. cbn [existsb]. rewrite Hu, orb_true_r, app_nil_r. auto.
Qed.

(** ** update, continued *)

Lemma loose_eq_str_iff (v : JsVal) (p : string) :
  loose_eq v (JStr p) = true <-> v = JStr p.
Proof.
  destruct v as [| |s]; simpl; try (split; discriminate).
  rewrite String.eqb_eq. split; [now intros -> | now intros [= ->]].
Qed.

(** X6. For a patch that sets a non-empty phone and no flag of its own,
    [update] stores the phone and raises [phoneVerified] exactly when the
    provider's record for [query.firebaseId] carries that same number;
    with another number, or none, the stored flag is left as it was. *)
Theorem update_phone_flag (svc : Services) (q : Filter) (data : Data.t) (w : World)
        (pre : list User.t) (u : User.t) (post : list User.t)
        (r : UserRecord) (p : string) :
  users w = pre ++ u :: post -> none_match q pre -> matches q u = true ->
  getUser svc (query_firebaseId q) = Some r ->
  Data.phone data = JStr p -> p <> ""%string ->
  Data.phoneVerified data = None ->
  exists u',
    users (fst (update svc q data w)) = pre ++ u' :: post
    /\ User.phone u' = JStr p
    /\ (fb_phoneNumber r = JStr p -> User.phoneVerified u' = Some true)
    /\ (fb_phoneNumber r <> JStr p -> User.phoneVerified u' = User.phoneVerified u).
Proof.
  intros Hw Hpre Hu Hr Hp Hne Hflag. rewrite update_run. cbn [fst users]. rewrite Hw.
  rewrite (update_first_split q _ pre u post Hpre Hu).
  eexists. split; [reflexivity|].
  unfold enriched. rewrite Hr. cbv zeta.
  assert (Ht : truthy (JStr p) = true) by (apply truthy_spec; eauto).
  assert (Hloose : loose_eq (fb_phoneNumber r) (JStr p) = true <-> fb_phoneNumber r = JStr p)
    by apply loose_eq_str_iff.
  destruct (truthy (Data.email data) && fb_emailVerified r);
    cbn [Data.phone Data.set_emailVerified]; rewrite Hp, Ht; cbn [andb];
    destruct (loose_eq (fb_phoneNumber r) (JStr p));
    simpl; rewrite ?Hp, ?Hflag; (split; [reflexivity|]); split; intros E;
    try reflexivity;
    try (apply Hloose in E; discriminate);
    try (exfalso; apply E; now apply Hloose).
Qed.

(** X7. When the provider's lookup for [query.firebaseId] rejects -- as it
    does for a query with no [firebaseId] key once the provider refuses
    [undefined] -- [update] hands the patch to the store exactly as it was
    submitted: no flag is added and the failure is not reported. *)
Theorem update_provider_unavailable (svc : Services) (q : Filter) (data : Data.t)
        (w : World) :
  getUser svc (query_firebaseId q) = None ->
  users (fst (update svc q data w)) = update_first q (USet data) (users w)
  /\ snd (update svc q data w) <> Throw FirebaseError
  /\ In (EUserFindOneAndUpdate q (USet data)) (trace (fst (update svc q data w))).
Proof.
  intros H. rewrite update_run. unfold enriched. rewrite H. cbn [fst snd users trace].
  split; [reflexivity|]. split.
  - destruct (find (matches q) (users w)); discriminate.
  - apply in_or_app. right. now left.
Qed.

(** ** What the writes leave alone *)

Lemma apply_update_id (upd : Update) (u : User.t) :
  User._id (apply_update upd u) = User._id u.
Proof. destruct upd; reflexivity. Qed.

Lemma update_first_ids (q : Filter) (upd : Update) (us : list User.t) :
  map User._id (update_first q upd us) = map User._id us.
Proof.
  induction us as [|u us IH]; simpl; [reflexivity|].
  destruct (matches q u); simpl; [now rewrite apply_update_id | now rewrite IH].
Qed.

(** X8. [update], [connected], [disconnected] and [getGeoByIp] rewrite
    records in place: none of them inserts, removes or reorders a user,
    whatever their outcome, so the collection's list of [_id]s is the same
    after the call. *)
Theorem in_place_writes_keep_ids (svc : Services) (w : World) :
  (forall q data, map User._id (users (fst (update svc q data w))) = map User._id (users w))
  /\ (forall now data, map User._id (users (fst (connected now data w))) = map User._id (users w))
  /\ (forall s, map User._id (users (fst (disconnected s w))) = map User._id (users w))
  /\ (forall ip userId,
        map User._id (users (fst (getGeoByIp svc ip userId w))) = map User._id (users w)).
Proof.
  repeat split.
  - intros q data. rewrite update_run. cbn [fst users]. apply update_first_ids.
  - intros now data. unfold connected.
    destruct (String.eqb (cd_socketid data) "" || String.eqb (cd_user data) "");
      [reflexivity|].
    unfold userModel_updateOne, userModel_findOne, userSessionModel_create.
    autounfold with run. unfold logged. cbn. apply update_first_ids.
  - intros s. rewrite disconnected_run. cbn [fst users]. apply update_first_ids.
  - intros ip userId.
    destruct (httpGet svc (ipinfo_url ip)) as [geo|] eqn:Hgeo.
    + destruct (getGeoByIp_run svc ip userId geo w Hgeo) as (civ & r & Hrun & _).
      rewrite Hrun. cbn [fst users]. unfold geo_users.
      destruct (truthy userId); [apply update_first_ids | reflexivity].
    + now rewrite (getGeoByIp_lookup_fails svc ip userId w Hgeo).
Qed.

(** ** connected / disconnected, continued *)

(** X9. A [connected] call whose socket id or user id is empty is a
    guarded skip: nothing is written, no session is logged, no store call
    is issued, and nothing is raised. *)
Theorem connected_missing_id_skips (now : Z) (data : ConnectData) (w : World) :
  cd_socketid data = ""%string \/ cd_user data = ""%string ->
  connected now data w = (w, Ok tt).
Proof.
  intros H. unfold connected.
  assert (E : String.eqb (cd_socketid data) "" || String.eqb (cd_user data) "" = true).
  { apply orb_true_iff. destruct H as [H|H]; rewrite H; auto. }
  now rewrite E.
Qed.

Lemma online_inc_other (po : PlatformOnline) (p p' : Platform) :
  p' <> p -> online (inc_online po p) p' = online po p'.
Proof. destruct p, p'; intros H; try reflexivity; now contradiction H. Qed.

(** X10. For an existing user, [connected] with non-empty ids appends the
    new socket entry at the end of that user's [activeSockets], increments
    that user's counter for the platform and no other counter, leaves every
    other record alone, and logs one session carrying the state of the
    user's location. *)
Theorem connected_existing_user (now : Z) (data : ConnectData) (w : World)
        (pre : list User.t) (u : User.t) (post : list User.t) :
  cd_socketid data <> ""%string ->
  cd_user data <> ""%string ->
  users w = pre ++ u :: post ->
  none_match (FEq PfirebaseId (JStr (cd_user data))) pre ->
  User.firebaseId u = JStr (cd_user data) ->
  let w' := fst (connected now data w) in
  exists u',
    users w' = pre ++ u' :: post
    /\ User.activeSockets u'
       = User.activeSockets u
         ++ [mkActiveSocket (cd_socketid data) (cd_platform data) now]
    /\ online (User.platformOnline u') (cd_platform data)
       = bumped (online (User.platformOnline u) (cd_platform data))
    /\ (forall p, p <> cd_platform data ->
          online (User.platformOnline u') p = online (User.platformOnline u) p)
    /\ sessions w'
       = sessions w
         ++ [mkUserSession (cd_user data) (cd_socketid data) (cd_platform data) now
               (user_ref loc_state u)].
Proof.
  intros Hs Hu Hw Hpre Hfid w'. subst w'.
  rewrite (connected_run now data w Hs Hu). cbn [fst users sessions].
  assert (Hm : matches (FEq PfirebaseId (JStr (cd_user data))) u = true).
  { simpl. rewrite Hfid. apply String.eqb_refl. }
  unfold session_of. rewrite Hw, (update_first_split _ _ pre u post Hpre Hm).
  set (u1 := apply_update (UPushInc (socket_of now data) (cd_platform data)) u).
  assert (Hm1 : matches (FEq PfirebaseId (JStr (cd_user data))) u1 = true) by exact Hm.
  rewrite (find_split _ pre u1 post Hpre Hm1).
  exists u1. split; [reflexivity|]. split; [reflexivity|].
  split; [apply online_inc|]. split; [|reflexivity].
  intros p Hp. now apply online_inc_other.
Qed.

(** X11. [disconnected] with a socket id that no user holds changes
    neither the users nor the sessions, and raises nothing. *)
Theorem disconnected_unknown_socket (s : string) (w : World) :
  none_match (FSocketId s) (users w) ->
  snd (disconnected s w) = Ok tt
  /\ users (fst (disconnected s w)) = users w
  /\ sessions (fst (disconnected s w)) = sessions w.
Proof.
  intros H. rewrite disconnected_run. cbn [fst snd users sessions].
  now rewrite (update_first_none _ _ _ H).
Qed.

Lemma update_first_pull_counters (s : string) (us : list User.t) :
  map User.platformOnline (update_first (FSocketId s) (UPullSocket s) us)
  = map User.platformOnline us.
Proof.
  induction us as [|u us IH]; simpl; [reflexivity|].
  destruct (holds_socket s u); simpl; [reflexivity | now rewrite IH].
Qed.

(** X12. [disconnected] never lowers a counter: every user's
    [platformOnline] is the same after the call as before it, and no
    session is touched. *)
Theorem disconnected_keeps_counters (s : string) (w : World) :
  map User.platformOnline (users (fst (disconnected s w)))
  = map User.platformOnline (users w)
  /\ sessions (fst (disconnected s w)) = sessions w.
Proof.
  rewrite disconnected_run. cbn [fst users sessions].
  split; [apply update_first_pull_counters | reflexivity].
Qed.

(** X13. [disconnected] takes entries from the first record that holds
    the socket id and from no other: that record keeps, in order, exactly
    its entries with another socket id, and every later holder keeps its
    entry. *)
Theorem disconnected_first_holder_only (s : string) (w : World)
        (pre : list User.t) (u : User.t) (post : list User.t) :
  users w = pre ++ u :: post ->
  none_match (FSocketId s) pre ->
  holds_socket s u = true ->
  exists u',
    users (fst (disconnected s w)) = pre ++ u' :: post
    /\ holds_socket s u' = false
    /\ (forall a, In a (User.activeSockets u') <->
                  In a (User.activeSockets u) /\ socketid a <> s)
    /\ User.activeSockets u'
       = List.filter (fun a => negb (String.eqb (socketid a) s)) (User.activeSockets u).
Proof.
  intros Hw Hpre Hu. rewrite disconnected_run. cbn [fst users]. rewrite Hw.
  rewrite (update_first_split (FSocketId s) _ pre u post Hpre Hu).
  eexists. split; [reflexivity|]. simpl. split; [apply pull_socket_clears|].
  split; [|reflexivity].
  intros a. unfold pull_socket. rewrite filter_In, negb_true_iff.
  split; intros [H1 H2]; split; auto.
  - now apply String.eqb_neq.
  - now apply String.eqb_neq.
Qed.

(** ** getGeoByIp, continued *)

Ltac run_getGeoByIp :=
  unfold getGeoByIp, geo_users, geo_calls, httpService_get,
    assemblyConstituencyService_findOne, parliamentaryConstituencyService_findOne,
    districtService_findOne, stateService_findOne, userModel_updateOne;
  autounfold with run; unfold logged.

(** X14. For a lookup that answers country ["IN"] with a city some
    assembly constituency matches, and a district on record for that
    constituency, [getGeoByIp] returns all four levels: the constituency,
    the parliamentary constituency and district it references, and the
    state the district references.  It asks the four stores once each, in
    that order. *)
Theorem getGeoByIp_full_chain (svc : Services) (ip : string) (userId : JsVal)
        (geo : Geo) (w : World) (a : AssemblyConstituency) (d : District) :
  httpGet svc (ipinfo_url ip) = Some geo ->
  loose_eq_str (country geo) "IN" = true ->
  assemblyFindOne svc (city geo) = Some a ->
  districtFindOne svc (ac_district a) = Some d ->
  snd (getGeoByIp svc ip userId w)
  = Ok (mkGeoByIpDto (Some a)
          (parliamentaryFindOne svc (ac_parliamentaryConstituency a))
          (Some d)
          (stateFindOne svc (d_state d)))
  /\ trace (fst (getGeoByIp svc ip userId w))
     = trace w ++ geo_calls ip userId geo
       ++ [EAssemblyFindOne (city geo);
           EParliamentaryFindOne (ac_parliamentaryConstituency a);
           EDistrictFindOne (ac_district a);
           EStateFindOne (d_state d)].
Proof.
  intros Hgeo Hc Ha Hd. run_getGeoByIp. rewrite Hgeo.
  destruct (truthy userId); cbn; rewrite Hc; cbn; rewrite Ha; cbn; rewrite Hd; cbn;
    (split; [reflexivity | repeat rewrite <- app_assoc; reflexivity]).
Qed.

(** X15. When the matched constituency's district is not on record,
    [getGeoByIp] raises a type error instead of returning a location: the
    state store is never asked, and the write of the geo string made before
    resolution stays. *)
Theorem getGeoByIp_missing_district (svc : Services) (ip : string) (userId : JsVal)
        (geo : Geo) (w : World) (a : AssemblyConstituency) :
  httpGet svc (ipinfo_url ip) = Some geo ->
  loose_eq_str (country geo) "IN" = true ->
  assemblyFindOne svc (city geo) = Some a ->
  districtFindOne svc (ac_district a) = None ->
  snd (getGeoByIp svc ip userId w) = Throw TypeError
  /\ users (fst (getGeoByIp svc ip userId w)) = geo_users ip userId geo (users w)
  /\ trace (fst (getGeoByIp svc ip userId w))
     = trace w ++ geo_calls ip userId geo
       ++ [EAssemblyFindOne (city geo);
           EParliamentaryFindOne (ac_parliamentaryConstituency a);
           EDistrictFindOne (ac_district a)].
Proof.
  intros Hgeo Hc Ha Hd. run_getGeoByIp. rewrite Hgeo.
  destruct (truthy userId); cbn; rewrite Hc; cbn; rewrite Ha; cbn; rewrite Hd; cbn;
    (split; [reflexivity | split; [reflexivity|]];
     repeat rewrite <- app_assoc; reflexivity).
Qed.

(** X16. For country ["IN"] and a city no assembly constituency matches,
    [getGeoByIp] returns the empty location after a single civic query, the
    one against the assembly constituencies. *)
Theorem getGeoByIp_unmatched_city (svc : Services) (ip : string) (userId : JsVal)
        (geo : Geo) (w : World) :
  httpGet svc (ipinfo_url ip) = Some geo ->
  loose_eq_str (country geo) "IN" = true ->
  assemblyFindOne svc (city geo) = None ->
  snd (getGeoByIp svc ip userId w) = Ok emptyLocation
  /\ trace (fst (getGeoByIp svc ip userId w))
     = trace w ++ geo_calls ip userId geo ++ [EAssemblyFindOne (city geo)].
Proof.
  intros Hgeo Hc Ha. run_getGeoByIp. rewrite Hgeo.
  destruct (truthy userId); cbn; rewrite Hc; cbn; rewrite Ha; cbn;
    (split; [reflexivity | repeat rewrite <- app_assoc; reflexivity]).
Qed.

(** X17. When the geo lookup rejects, [getGeoByIp] rejects with it: the
    error reaches the caller, and neither the user write nor any civic
    query is made. *)
Theorem getGeoByIp_lookup_rejects (svc : Services) (ip : string) (userId : JsVal)
        (w : World) :
  httpGet svc (ipinfo_url ip) = None ->
  snd (getGeoByIp svc ip userId w) = Throw HttpError
  /\ users (fst (getGeoByIp svc ip userId w)) = users w
  /\ trace (fst (getGeoByIp svc ip userId w)) = trace w ++ [EHttpGet (ipinfo_url ip)].
Proof.
  intros H. run_getGeoByIp. rewrite H. repeat split.
Qed.

Lemma update_first_geo_only (q : Filter) (geo : Geo) (ip : string) (us : list User.t) :
  map without_geo (update_first q (USet (geo_patch geo ip)) us) = map without_geo us.
Proof.
  induction us as [|u us IH]; simpl; [reflexivity|].
  destruct (matches q u); simpl; [|now rewrite IH].
  f_equal.
Qed.

(** X18. [getGeoByIp] writes nothing but [ipGeo] and [lastIp]: with those
    two fields blanked the user collection is the same before and after the
    call, whatever the outcome; without a [userId] (absent or empty) the
    collection is untouched.  No session is ever written. *)
Theorem getGeoByIp_writes_geo_only (svc : Services) (ip : string) (userId : JsVal)
        (w : World) :
  map without_geo (users (fst (getGeoByIp svc ip userId w))) = map without_geo (users w)
  /\ sessions (fst (getGeoByIp svc ip userId w)) = sessions w
  /\ (truthy userId = false -> users (fst (getGeoByIp svc ip userId w)) = users w).
Proof.
  destruct (httpGet svc (ipinfo_url ip)) as [geo|] eqn:Hgeo.
  - destruct (getGeoByIp_run svc ip userId geo w Hgeo) as (civ & r & Hrun & _).
    rewrite Hrun. cbn [fst users sessions]. unfold geo_users.
    destruct (truthy userId); repeat split; try discriminate.
    apply update_first_geo_only.
  - rewrite (getGeoByIp_lookup_fails svc ip userId w Hgeo). repeat split.
Qed.

(** ** checkCredentials, continued *)

Lemma shares_credential_sym (u v : User.t) :
  shares_credential u v -> shares_credential v u.
Proof.
  unfold shares_credential.
  intros [H|[H|H]]; apply nonempty_match_sym in H; auto.
Qed.

(** X19. In a collection where no two users share a credential, a stored
    user who submits its own values together with its own [_id] gets no
    match: the record being edited is excluded and no other record
    collides with it. *)
Theorem own_credentials_pass (u : User.t) (w : World) :
  credentials_unique (users w) ->
  In u (users w) ->
  snd (checkCredentials (own_credentials u) w) = Ok false.
Proof.
  intros Huniq Hin. rewrite checkCredentials_run. cbn [snd]. f_equal.
  unfold reports_match. apply none_match_forallb. intros v Hv.
  destruct (matches (credentials_query (own_credentials u)) v) eqn:Hm; [|reflexivity].
  exfalso. apply credentials_query_spec in Hm as [Hself Hcol].
  assert (Hne : u <> v).
  { intros ->. apply Hself. right. reflexivity. }
  destruct (ForallOrdPairs_In Huniq u v Hin Hv) as [E|[H|H]].
  - contradiction.
  - apply H. exact Hcol.
  - apply H. apply shares_credential_sym. exact Hcol.
Qed.

(** ** findOne *)

Lemma first_lookup_joined {A} (id_of : A -> ObjectId) (docs : list A)
      (ref : option ObjectId) :
  joined id_of docs ref (first (lookup id_of docs ref)).
Proof.
  unfold joined, first, lookup. destruct ref as [i|].
  - destruct (List.filter (fun d => Nat.eqb (id_of d) i) docs) as [|d l] eqn:Hf; simpl.
    + intros d Hd [= Hi].
      assert (Hin : In d (List.filter (fun d => Nat.eqb (id_of d) i) docs)).
      { apply filter_In. split; [exact Hd|]. subst i. apply Nat.eqb_refl. }
      rewrite Hf in Hin. contradiction.
    + assert (Hin : In d (List.filter (fun d => Nat.eqb (id_of d) i) docs)).
      { rewrite Hf. now left. }
      apply filter_In in Hin as [Hd Hi]. apply Nat.eqb_eq in Hi. subst i. auto.
  - simpl. intros d _. discriminate.
Qed.

Lemma filter_none_match (q : Filter) (us : list User.t) :
  none_match q us -> List.filter (matches q) us = [].
Proof.
  induction us as [|u us IH]; intros H; simpl; [reflexivity|].
  rewrite (H u (or_introl eq_refl)). apply IH. intros v Hv. apply H. now right.
Qed.

Lemma filter_split_first (q : Filter) (pre : list User.t) (u : User.t)
      (post : list User.t) :
  none_match q pre -> matches q u = true ->
  List.filter (matches q) (pre ++ u :: post) = u :: List.filter (matches q) post.
Proof.
  intros Hpre Hu. rewrite filter_app, (filter_none_match q pre Hpre). simpl.
  now rewrite Hu.
Qed.

(** X20. [findOne] is a read: it leaves the world as it is and raises
    nothing.  It answers [undefined] exactly when no user matches the
    query; otherwise it answers the first matching user, each field of
    whose location holds a document of the joined collection with the
    referenced [_id], or is absent when the reference is missing or
    dangling. *)
Theorem findOne_joins (civic : Civic) (q : Filter) (w : World) :
  fst (findOne civic q w) = w
  /\ (snd (findOne civic q w) = Ok None <-> none_match q (users w))
  /\ (forall pre u post,
        users w = pre ++ u :: post -> none_match q pre -> matches q u = true ->
        exists j,
          snd (findOne civic q w) = Ok (Some (u, j))
          /\ joined s_id (State_docs civic) (user_ref loc_state u) (j_state j)
          /\ joined d_id (District_docs civic) (user_ref loc_district u) (j_district j)
          /\ joined ac_id (AssemblyConstituency_docs civic)
               (user_ref loc_assemblyConstituency u) (j_assemblyConstituency j)
          /\ joined pc_id (ParliamentaryConstituency_docs civic)
               (user_ref loc_parliamentaryConstituency u)
               (j_parliamentaryConstituency j)).
Proof.
  unfold findOne. autounfold with run. cbn [fst snd]. split; [reflexivity|]. split.
  - split.
    + intros H. intros u Hu.
      destruct (matches q u) eqn:Hm; [|reflexivity]. exfalso.
      assert (Hin : In u (List.filter (matches q) (users w))) by (apply filter_In; auto).
      destruct (List.filter (matches q) (users w)); [contradiction | discriminate].
    + intros H. now rewrite (filter_none_match q _ H).
  - intros pre u post Hw Hpre Hu. rewrite Hw, (filter_split_first q pre u post Hpre Hu).
    eexists. split; [reflexivity|]. cbn [j_state j_district j_assemblyConstituency
      j_parliamentaryConstituency].
    repeat split; apply first_lookup_joined.
Qed.

(** ** getOnlineCounts / getCounts *)

Section GroupCount.

Context {K : Type} (eqb : K -> K -> bool).
Hypothesis eqb_eq : forall a b, eqb a b = true <-> a = b.

Lemma eqb_same (a : K) : eqb a a = true.
Proof. now apply eqb_eq. Qed.

Lemma count_for_bump (k k' : K) (acc : list (K * nat)) :
  count_for eqb k (bump_key eqb k' acc)
  = (if eqb k' k then 1 else 0) + count_for eqb k acc.
Proof.
  unfold count_for. induction acc as [|[k0 n] acc IH]; simpl.
  - destruct (eqb k' k); reflexivity.
  - destruct (eqb k0 k') eqn:E0; simpl.
    + apply eqb_eq in E0. subst k0.
      destruct (eqb k' k); simpl; reflexivity.
    + destruct (eqb k0 k) eqn:E1; simpl; [|exact IH].
      destruct (eqb k' k) eqn:E2; [|reflexivity].
      apply eqb_eq in E1, E2. subst. rewrite eqb_same in E0. discriminate.
Qed.

Lemma sum_bump (k : K) (acc : list (K * nat)) :
  list_sum (map snd (bump_key eqb k acc)) = S (list_sum (map snd acc)).
Proof.
  induction acc as [|[k0 n] acc IH]; simpl; [reflexivity|].
  destruct (eqb k0 k); simpl; [reflexivity|]. rewrite IH. lia.
Qed.

Lemma keys_bump (k k' : K) (acc : list (K * nat)) :
  In k' (map fst (bump_key eqb k acc)) <-> k' = k \/ In k' (map fst acc).
Proof.
  induction acc as [|[k0 n] acc IH]; simpl.
  - intuition.
  - destruct (eqb k0 k) eqn:E; simpl.
    + apply eqb_eq in E. subst. intuition.
    + rewrite IH. intuition.
Qed.

Lemma nodup_bump (k : K) (acc : list (K * nat)) :
  NoDup (map fst acc) -> NoDup (map fst (bump_key eqb k acc)).
Proof.
  induction acc as [|[k0 n] acc IH]; simpl; intros H.
  - constructor; [intros [] | constructor].
  - inversion H as [|? ? Hnot Hrest]; subst.
    destruct (eqb k0 k) eqn:E; simpl; [now constructor|].
    constructor; [|now apply IH].
    rewrite keys_bump. intros [->|Hin]; [|contradiction].
    rewrite eqb_same in E. discriminate.
Qed.

Lemma positive_bump (k : K) (acc : list (K * nat)) :
  Forall (fun e => 1 <= snd e) acc -> Forall (fun e => 1 <= snd e) (bump_key eqb k acc).
Proof.
  induction acc as [|[k0 n] acc IH]; simpl; intros H.
  - constructor; [simpl; lia | constructor].
  - inversion H; subst. destruct (eqb k0 k); constructor; simpl in *; auto; lia.
Qed.

(** What a grouping with [$sum: 1] reports: for each key its number of
    occurrences, one entry per key that occurs, and in total one per
    document. *)
Lemma group_count_spec (keys : list K) :
  (forall k, count_for eqb k (group_count eqb keys) = occurrences eqb k keys)
  /\ list_sum (map snd (group_count eqb keys)) = List.length keys
  /\ NoDup (map fst (group_count eqb keys))
  /\ Forall (fun e => 1 <= snd e) (group_count eqb keys)
  /\ (forall k, In k (map fst (group_count eqb keys)) <-> In k keys).
Proof.
  unfold group_count.
  assert (G : forall acc,
    (forall k, count_for eqb k (fold_left (fun acc k => bump_key eqb k acc) keys acc)
               = occurrences eqb k keys + count_for eqb k acc)
    /\ list_sum (map snd (fold_left (fun acc k => bump_key eqb k acc) keys acc))
       = List.length keys + list_sum (map snd acc)
    /\ (NoDup (map fst acc) ->
        NoDup (map fst (fold_left (fun acc k => bump_key eqb k acc) keys acc)))
    /\ (Forall (fun e => 1 <= snd e) acc ->
        Forall (fun e => 1 <= snd e) (fold_left (fun acc k => bump_key eqb k acc) keys acc))
    /\ (forall k, In k (map fst (fold_left (fun acc k => bump_key eqb k acc) keys acc))
                  <-> In k keys \/ In k (map fst acc))).
  { induction keys as [|k0 keys IH]; intros acc; simpl.
    - repeat split; auto. intuition.
    - destruct (IH (bump_key eqb k0 acc)) as (H1 & H2 & H3 & H4 & H5).
      repeat split.
      + intros k. rewrite H1, count_for_bump. unfold occurrences. simpl.
        destruct (eqb k0 k); simpl; lia.
      + rewrite H2, sum_bump. lia.
      + intros H. apply H3. now apply nodup_bump.
      + intros H. apply H4. now apply positive_bump.
      + rewrite H5, keys_bump. intuition.
      + rewrite H5, keys_bump. intuition. }
  destruct (G []) as (H1 & H2 & H3 & H4 & H5). repeat split.
  - intros k. rewrite H1. unfold count_for. simpl. lia.
  - rewrite H2. simpl. lia.
  - apply H3. constructor.
  - apply H4. constructor.
  - rewrite H5. simpl. tauto.
  - rewrite H5. simpl. tauto.
Qed.

End GroupCount.

Lemma Platform_eqb_eq (p q : Platform) : Platform_eqb p q = true <-> p = q.
Proof. destruct p, q; simpl; split; intros H; try reflexivity; discriminate. Qed.

Lemma occurrences_app {K} (eqb : K -> K -> bool) (k : K) (l1 l2 : list K) :
  occurrences eqb k (l1 ++ l2) = occurrences eqb k l1 + occurrences eqb k l2.
Proof. unfold occurrences. now rewrite filter_app, length_app. Qed.

Lemma occurrences_platforms (p : Platform) (u : User.t) :
  occurrences Platform_eqb p (map platform (User.activeSockets u)) = sockets_on p u.
Proof.
  unfold occurrences, sockets_on.
  induction (User.activeSockets u) as [|a l IH]; simpl; [reflexivity|].
  destruct (Platform_eqb (platform a) p); simpl; now rewrite IH.
Qed.

Lemma sockets_on_nil (p : Platform) (u : User.t) :
  User.activeSockets u = [] -> sockets_on p u = 0.
Proof. unfold sockets_on. now intros ->. Qed.

(** The sockets the platform breakdown counts, user by user: the
    [$ne: []] clause drops only users who contribute nothing. *)
Lemma online_platforms_count (f : SessionFilter) (p : Platform) (us : list User.t) :
  occurrences Platform_eqb p (online_platforms f us)
  = list_sum (map (sockets_on p) (List.filter (in_state f) us)).
Proof.
  unfold online_platforms. induction us as [|u us IH]; [reflexivity|].
  cbn [List.filter]. unfold userFilter at 1. fold (in_state f u).
  destruct (in_state f u) eqn:Hs.
  - destruct (User.activeSockets u) as [|a l] eqn:Ha.
    + cbn [andb map list_sum]. rewrite IH, (sockets_on_nil p u Ha). reflexivity.
    + cbn [andb flat_map map list_sum]. rewrite Ha, map_app, occurrences_app, IH.
      rewrite <- Ha, occurrences_platforms. reflexivity.
  - rewrite andb_false_r. exact IH.
Qed.

Lemma occurrences_map {A} (g : A -> string) (k : string) (l : list A) :
  occurrences String.eqb k (map g l)
  = List.length (List.filter (fun x => String.eqb (g x) k) l).
Proof.
  unfold occurrences. induction l as [|x l IH]; simpl; [reflexivity|].
  destruct (String.eqb (g x) k); simpl; now rewrite IH.
Qed.

Lemma getOnlineCounts_run (dateToString : string -> Z -> string)
      (f : SessionFilter) (timespan : option string) (w : World) :
  getOnlineCounts dateToString f timespan w
  = (w, Ok (mkOnlineCounts
              (group_count Platform_eqb (online_platforms f (users w)))
              (group_count String.eqb
                 (map (fun s => dateToString (format_or timespan "%Y-%m") (us_date s))
                    (List.filter (session_matches f) (sessions w)))))).
Proof. reflexivity. Qed.

Lemma getCounts_run (dateToString : string -> Z -> string) (createdAt : User.t -> Z)
      (q : Filter) (timespan : option string) (w : World) :
  getCounts dateToString createdAt q timespan w
  = (w, Ok (group_count String.eqb
              (map (fun u => dateToString (format_or timespan "%Y-%m-%d") (createdAt u))
                 (List.filter (matches q) (users w))))).
Proof. reflexivity. Qed.

(** X21. The platform breakdown of [getOnlineCounts] reports, for every
    platform, the number of active sockets on it summed over the users
    whose location is in the filter's state (over all users when the
    filter names no state).  A platform has at most one entry, and an
    entry never reports zero.  The call is a read. *)
Theorem getOnlineCounts_byPlatform (dateToString : string -> Z -> string)
        (f : SessionFilter) (timespan : option string) (w : World) :
  exists c,
    getOnlineCounts dateToString f timespan w = (w, Ok c)
    /\ (forall p, count_for Platform_eqb p (byPlatform c)
                  = list_sum (map (sockets_on p) (List.filter (in_state f) (users w))))
    /\ NoDup (map fst (byPlatform c))
    /\ Forall (fun e => 1 <= snd e) (byPlatform c).
Proof.
  rewrite getOnlineCounts_run. eexists. split; [reflexivity|]. cbn [byPlatform].
  destruct (group_count_spec Platform_eqb Platform_eqb_eq
              (online_platforms f (users w))) as (H1 & _ & H3 & H4 & _).
  split; [|split; assumption].
  intros p. rewrite <- online_platforms_count. apply H1.
Qed.

(** X22. The date breakdown of [getOnlineCounts] reports, for every
    bucket, the number of sessions matching the filter whose date formats
    to that bucket, with format ["%Y-%m"] when no timespan is given; the
    buckets are distinct and their counts add up to the number of matching
    sessions. *)
Theorem getOnlineCounts_byDate (dateToString : string -> Z -> string)
        (f : SessionFilter) (timespan : option string) (w : World) :
  let fmt := match timespan with Some t => t | None => "%Y-%m"%string end in
  exists c,
    snd (getOnlineCounts dateToString f timespan w) = Ok c
    /\ (forall k, count_for String.eqb k (byDate c)
                  = List.length
                      (List.filter
                         (fun s => String.eqb (dateToString fmt (us_date s)) k)
                         (List.filter (session_matches f) (sessions w))))
    /\ list_sum (map snd (byDate c))
       = List.length (List.filter (session_matches f) (sessions w))
    /\ NoDup (map fst (byDate c)).
Proof.
  intros fmt. rewrite getOnlineCounts_run. eexists. split; [reflexivity|].
  cbn [byDate]. fold fmt. change (format_or timespan "%Y-%m") with fmt.
  match goal with
  | |- context [group_count String.eqb ?keys] =>
      destruct (group_count_spec String.eqb String.eqb_eq keys) as (H1 & H2 & H3 & _)
  end.
  split; [|split; [|exact H3]].
  - intros k. rewrite H1. apply occurrences_map.
  - rewrite H2. apply length_map.
Qed.

(** X23. [getCounts] reports, for every bucket, the number of users
    matching the filter whose creation date formats to that bucket, with
    format ["%Y-%m-%d"] when no timespan is given; the buckets are distinct,
    none is empty, and their counts add up to the number of matching users.
    The call is a read. *)
Theorem getCounts_buckets (dateToString : string -> Z -> string)
        (createdAt : User.t -> Z) (q : Filter) (timespan : option string) (w : World) :
  let fmt := match timespan with Some t => t | None => "%Y-%m-%d"%string end in
  exists groups,
    getCounts dateToString createdAt q timespan w = (w, Ok groups)
    /\ (forall k, count_for String.eqb k groups
                  = List.length
                      (List.filter
                         (fun u => String.eqb (dateToString fmt (createdAt u)) k)
                         (List.filter (matches q) (users w))))
    /\ list_sum (map snd groups) = List.length (List.filter (matches q) (users w))
    /\ NoDup (map fst groups)
    /\ Forall (fun e => 1 <= snd e) groups.
Proof.
  intros fmt. rewrite getCounts_run. eexists. split; [reflexivity|].
  change (format_or timespan "%Y-%m-%d") with fmt.
  match goal with
  | |- context [group_count String.eqb ?keys] =>
      destruct (group_count_spec String.eqb String.eqb_eq keys) as (H1 & H2 & H3 & H4 & _)
  end.
  split; [|split; [|split; assumption]].
  - intros k. rewrite H1. apply occurrences_map.
  - rewrite H2. apply length_map.
Qed.

Lemma sum_sockets_split (f : SessionFilter) (p : Platform)
      (pre : list User.t) (u : User.t) (post : list User.t) :
  list_sum (map (sockets_on p) (List.filter (in_state f) (pre ++ u :: post)))
  = list_sum (map (sockets_on p) (List.filter (in_state f) pre))
    + (if in_state f u then sockets_on p u else 0)
    + list_sum (map (sockets_on p) (List.filter (in_state f) post)).
Proof.
  rewrite filter_app, map_app, list_sum_app. cbn [List.filter].
  destruct (in_state f u); simpl; lia.
Qed.

(** X24. Connecting an existing user whose location is in the filter's
    state raises the platform breakdown of [getOnlineCounts] by exactly one
    for the connection's platform and leaves every other platform's count
    as it was. *)
Theorem connected_counts_once (dateToString : string -> Z -> string)
        (f : SessionFilter) (timespan : option string)
        (now : Z) (data : ConnectData) (w : World)
        (pre : list User.t) (u : User.t) (post : list User.t) :
  cd_socketid data <> ""%string ->
  cd_user data <> ""%string ->
  users w = pre ++ u :: post ->
  none_match (FEq PfirebaseId (JStr (cd_user data))) pre ->
  User.firebaseId u = JStr (cd_user data) ->
  in_state f u = true ->
  exists before after,
    snd (getOnlineCounts dateToString f timespan w) = Ok before
    /\ snd (getOnlineCounts dateToString f timespan (fst (connected now data w)))
       = Ok after
    /\ count_for Platform_eqb (cd_platform data) (byPlatform after)
       = count_for Platform_eqb (cd_platform data) (byPlatform before) + 1
    /\ (forall p, p <> cd_platform data ->
          count_for Platform_eqb p (byPlatform after)
          = count_for Platform_eqb p (byPlatform before)).
Proof.
  intros Hs Hu Hw Hpre Hfid Hin. rewrite !getOnlineCounts_run.
  eexists. eexists. split; [reflexivity|]. split; [reflexivity|].
  cbn [byPlatform]. rewrite (connected_run now data w Hs Hu). cbn [fst users].
  assert (Hm : matches (FEq PfirebaseId (JStr (cd_user data))) u = true).
  { simpl. rewrite Hfid. apply String.eqb_refl. }
  rewrite Hw, (update_first_split _ _ pre u post Hpre Hm).
  set (u1 := apply_update (UPushInc (socket_of now data) (cd_platform data)) u).
  assert (Hin1 : in_state f u1 = true) by exact Hin.
  assert (Hcount : forall p,
    count_for Platform_eqb p
      (group_count Platform_eqb (online_platforms f (pre ++ u1 :: post)))
    = count_for Platform_eqb p
        (group_count Platform_eqb (online_platforms f (pre ++ u :: post)))
      + (if Platform_eqb (cd_platform data) p then 1 else 0)).
  { intros p.
    destruct (group_count_spec Platform_eqb Platform_eqb_eq
                (online_platforms f (pre ++ u1 :: post))) as (H1 & _).
    destruct (group_count_spec Platform_eqb Platform_eqb_eq
                (online_platforms f (pre ++ u :: post))) as (H0 & _).
    rewrite H1, H0, !online_platforms_count, !sum_sockets_split, Hin, Hin1.
    assert (E : sockets_on p u1
                = sockets_on p u + (if Platform_eqb (cd_platform data) p then 1 else 0)).
    { unfold sockets_on, u1. simpl. rewrite filter_app, length_app. simpl.
      destruct (Platform_eqb (cd_platform data) p); reflexivity. }
    rewrite E. lia. }
  split.
  - rewrite Hcount.
    assert (E : Platform_eqb (cd_platform data) (cd_platform data) = true)
      by now apply Platform_eqb_eq.
    now rewrite E.
  - intros p Hp. rewrite Hcount.
    destruct (Platform_eqb (cd_platform data) p) eqn:E; [|lia].
    apply Platform_eqb_eq in E. congruence.
Qed.

Lemma pull_socket_absent (s : string) (l : list ActiveSocket) :
  existsb (fun a => String.eqb (socketid a) s) l = false -> pull_socket s l = l.
Proof.
  unfold pull_socket. induction l as [|a l IH]; simpl; [reflexivity|].
  intros H. apply orb_false_iff in H as [H1 H2]. rewrite H1. simpl.
  now rewrite IH.
Qed.

(** X25. A connect followed at once by a disconnect of a socket id that
    neither the user nor any earlier record held puts the platform
    breakdown of [getOnlineCounts] back to what it was before the connect,
    although the user's stored [platformOnline] counter stays one higher:
    the two ways of counting part. *)
Theorem connect_disconnect_restores_breakdown
        (dateToString : string -> Z -> string)
        (f : SessionFilter) (timespan : option string)
        (now : Z) (data : ConnectData) (w : World)
        (pre : list User.t) (u : User.t) (post : list User.t) :
  cd_socketid data <> ""%string ->
  cd_user data <> ""%string ->
  users w = pre ++ u :: post ->
  none_match (FEq PfirebaseId (JStr (cd_user data))) pre ->
  User.firebaseId u = JStr (cd_user data) ->
  none_match (FSocketId (cd_socketid data)) pre ->
  holds_socket (cd_socketid data) u = false ->
  let w2 := fst (disconnected (cd_socketid data) (fst (connected now data w))) in
  exists before after u',
    snd (getOnlineCounts dateToString f timespan w) = Ok before
    /\ snd (getOnlineCounts dateToString f timespan w2) = Ok after
    /\ byPlatform after = byPlatform before
    /\ users w2 = pre ++ u' :: post
    /\ online (User.platformOnline u') (cd_platform data)
       = bumped (online (User.platformOnline u) (cd_platform data)).
Proof.
  intros Hs Hu Hw Hpre Hfid Hsock Hfree w2. subst w2.
  rewrite (connected_run now data w Hs Hu). cbn [fst].
  rewrite disconnected_run. cbn [fst users]. rewrite Hw.
  assert (Hm : matches (FEq PfirebaseId (JStr (cd_user data))) u = true).
  { simpl. rewrite Hfid. apply String.eqb_refl. }
  rewrite (update_first_split _ _ pre u post Hpre Hm).
  set (u1 := apply_update (UPushInc (socket_of now data) (cd_platform data)) u).
  assert (Hm1 : matches (FSocketId (cd_socketid data)) u1 = true).
  { simpl. unfold holds_socket. simpl. rewrite existsb_app. simpl.
    rewrite String.eqb_refl. simpl. apply orb_true_r. }
  rewrite (update_first_split _ _ pre u1 post Hsock Hm1).
  set (u2 := apply_update (UPullSocket (cd_socketid data)) u1).
  assert (Hsockets : User.activeSockets u2 = User.activeSockets u).
  { unfold u2, u1. simpl. unfold socket_of. rewrite pull_socket_pushed.
    now apply pull_socket_absent. }
  rewrite !getOnlineCounts_run.
  eexists. eexists. exists u2. split; [reflexivity|]. split; [reflexivity|].
  cbn [byPlatform users]. split; [|split; [reflexivity | apply online_inc]].
  f_equal. rewrite Hw. unfold online_platforms.
  rewrite !filter_app. cbn [List.filter].
  assert (Hf : userFilter f u2 = userFilter f u).
  { unfold userFilter. rewrite Hsockets. reflexivity. }
  rewrite Hf. destruct (userFilter f u); [|reflexivity].
  rewrite !flat_map_app. cbn [flat_map]. now rewrite Hsockets.
Qed.

(** ** Instances of the further properties *)

Ltac no_match :=
  let v := fresh "v" in
  let H := fresh "H" in
  intros v H; simpl in H;
  repeat (destruct H as [H|H]; [subst v; reflexivity|]); contradiction.

Ltac no_share :=
  let H := fresh "H" in
  let s := fresh "s" in
  intros [H|[H|H]]; destruct H as (s & _ & ? & ?); simpl in *; congruence.

Lemma create_keeps_unique_witness :
  (credentials_unique
     (users (fst (create all_down (with_phone "fB" "222")
                    (world_of [phone_user 0 "fA" "111"]))))
   /\ firebaseIds_unique
        (users (fst (create all_down (with_phone "fB" "222")
                       (world_of [phone_user 0 "fA" "111"])))))
  /\ ~ credentials_unique
        (users (fst (create_interleaved all_down all_down (with_phone "fB" "222")
                       (with_phone "fC" "222") (world_of [phone_user 0 "fA" "111"])))).
Proof.
  destruct (create_keeps_unique all_down (with_phone "fB" "222")
              (world_of [phone_user 0 "fA" "111"])) as (_ & Hseq & Hrace).
  split.
  - apply Hseq; repeat constructor.
  - apply (Hrace all_down (with_phone "fC" "222")); try reflexivity.
    left. exists "222"%string. repeat split. discriminate.
Defined.

Lemma create_twice_refused_witness :
  exists msg,
    snd (create all_down (with_phone "fB" "111")
           (fst (create all_down (with_phone "fA" "111") (world_of []))))
    = Throw (BadRequestException msg)
    /\ users (fst (create all_down (with_phone "fB" "111")
                     (fst (create all_down (with_phone "fA" "111") (world_of [])))))
       = users (fst (create all_down (with_phone "fA" "111") (world_of []))).
Proof.
  apply (create_twice_refused all_down all_down (with_phone "fA" "111")
           (with_phone "fB" "111") (world_of [])).
  - reflexivity.
  - reflexivity.
  - left. exists "111"%string. repeat split. discriminate.
Defined.

Lemma create_then_delete_witness :
  snd (delete (FEq PfirebaseId (JStr "f1"))
         (fst (create all_down (with_phone "f1" "111") (world_of [blank_user 0 "f0"]))))
  = Ok 1
  /\ users (fst (delete (FEq PfirebaseId (JStr "f1"))
                   (fst (create all_down (with_phone "f1" "111")
                           (world_of [blank_user 0 "f0"])))))
     = [blank_user 0 "f0"].
Proof.
  apply (create_then_delete all_down (with_phone "f1" "111")
           (world_of [blank_user 0 "f0"])); reflexivity.
Defined.

Lemma update_phone_flag_witness :
  exists u',
    users (fst (update (firebase_only "f1" (mkUserRecord JUndefined false (JStr "111")))
                  (FEq PfirebaseId (JStr "f1")) (phone_patch "111")
                  (world_of [blank_user 0 "f0"; blank_user 1 "f1"])))
    = [blank_user 0 "f0"] ++ u' :: []
    /\ User.phone u' = JStr "111"
    /\ (JStr "111" = JStr "111" -> User.phoneVerified u' = Some true)
    /\ (JStr "111" <> JStr "111" -> User.phoneVerified u' = None).
Proof.
  apply (update_phone_flag
           (firebase_only "f1" (mkUserRecord JUndefined false (JStr "111")))
           (FEq PfirebaseId (JStr "f1")) (phone_patch "111")
           (world_of [blank_user 0 "f0"; blank_user 1 "f1"])
           [blank_user 0 "f0"] (blank_user 1 "f1") []
           (mkUserRecord JUndefined false (JStr "111")) "111").
  - reflexivity.
  - no_match.
  - reflexivity.
  - reflexivity.
  - reflexivity.
  - discriminate.
  - reflexivity.
Defined.

Lemma update_provider_unavailable_witness :
  users (fst (update all_down (FIdEq 0) (email_patch "a@example.com")
                (world_of [blank_user 0 "f1"])))
  = update_first (FIdEq 0) (USet (email_patch "a@example.com")) [blank_user 0 "f1"].
Proof.
  apply (update_provider_unavailable all_down (FIdEq 0) (email_patch "a@example.com")
           (world_of [blank_user 0 "f1"])).
  reflexivity.
Defined.

Lemma connected_missing_id_skips_witness :
  connected 7 (mkConnectData "u1" "" app) (world_of [blank_user 0 "u1"])
  = (world_of [blank_user 0 "u1"], Ok tt).
Proof.
  apply (connected_missing_id_skips 7 (mkConnectData "u1" "" app)
           (world_of [blank_user 0 "u1"])).
  left. reflexivity.
Defined.

Lemma connected_existing_user_witness :
  exists u',
    users (fst (connected 7 (mkConnectData "u1" "s9" app) two_holders))
    = [with_sockets 0 "u0" [mkActiveSocket "s1" web 1; mkActiveSocket "s2" app 2]
         noPlatformOnline] ++ u' :: []
    /\ User.activeSockets u'
       = [mkActiveSocket "s1" app 3] ++ [mkActiveSocket "s9" app 7]
    /\ online (User.platformOnline u') app = bumped None
    /\ (forall p, p <> app ->
          online (User.platformOnline u') p = online noPlatformOnline p)
    /\ sessions (fst (connected 7 (mkConnectData "u1" "s9" app) two_holders))
       = [] ++ [mkUserSession "u1" "s9" app 7 None].
Proof.
  apply (connected_existing_user 7 (mkConnectData "u1" "s9" app) two_holders
           [with_sockets 0 "u0" [mkActiveSocket "s1" web 1; mkActiveSocket "s2" app 2]
              noPlatformOnline]
           (with_sockets 1 "u1" [mkActiveSocket "s1" app 3] noPlatformOnline) []).
  - discriminate.
  - discriminate.
  - reflexivity.
  - no_match.
  - reflexivity.
Defined.

Lemma disconnected_unknown_socket_witness :
  snd (disconnected "s9" two_holders) = Ok tt
  /\ users (fst (disconnected "s9" two_holders)) = users two_holders
  /\ sessions (fst (disconnected "s9" two_holders)) = sessions two_holders.
Proof.
  apply (disconnected_unknown_socket "s9" two_holders). no_match.
Defined.

Lemma disconnected_first_holder_only_witness :
  exists u',
    users (fst (disconnected "s1" two_holders))
    = [] ++ u' :: [with_sockets 1 "u1" [mkActiveSocket "s1" app 3] noPlatformOnline]
    /\ holds_socket "s1" u' = false
    /\ (forall a, In a (User.activeSockets u') <->
                  In a [mkActiveSocket "s1" web 1; mkActiveSocket "s2" app 2]
                  /\ socketid a <> "s1"%string)
    /\ User.activeSockets u'
       = List.filter (fun a => negb (String.eqb (socketid a) "s1"))
           [mkActiveSocket "s1" web 1; mkActiveSocket "s2" app 2].
Proof.
  apply (disconnected_first_holder_only "s1" two_holders []
           (with_sockets 0 "u0" [mkActiveSocket "s1" web 1; mkActiveSocket "s2" app 2]
              noPlatformOnline)
           [with_sockets 1 "u1" [mkActiveSocket "s1" app 3] noPlatformOnline]).
  - reflexivity.
  - no_match.
  - reflexivity.
Defined.

Lemma getGeoByIp_full_chain_witness :
  snd (getGeoByIp
         (civic_services bengaluru (Some shivajinagar) (Some bangalore_central)
            (Some bengaluru_urban) (Some karnataka))
         "1.2.3.4" JUndefined (world_of []))
  = Ok (mkGeoByIpDto (Some shivajinagar) (Some bangalore_central)
          (Some bengaluru_urban) (Some karnataka)).
Proof.
  apply (getGeoByIp_full_chain
           (civic_services bengaluru (Some shivajinagar) (Some bangalore_central)
              (Some bengaluru_urban) (Some karnataka))
           "1.2.3.4" JUndefined bengaluru (world_of []) shivajinagar bengaluru_urban);
    reflexivity.
Defined.

Lemma getGeoByIp_missing_district_witness :
  snd (getGeoByIp
         (civic_services bengaluru (Some shivajinagar) (Some bangalore_central) None None)
         "1.2.3.4" (JStr "f1") (world_of [blank_user 0 "f1"]))
  = Throw TypeError.
Proof.
  apply (getGeoByIp_missing_district
           (civic_services bengaluru (Some shivajinagar) (Some bangalore_central)
              None None)
           "1.2.3.4" (JStr "f1") bengaluru (world_of [blank_user 0 "f1"]) shivajinagar);
    reflexivity.
Defined.

Lemma getGeoByIp_unmatched_city_witness :
  snd (getGeoByIp (geo_only bengaluru) "1.2.3.4" JUndefined (world_of []))
  = Ok emptyLocation.
Proof.
  apply (getGeoByIp_unmatched_city (geo_only bengaluru) "1.2.3.4" JUndefined bengaluru
           (world_of [])); reflexivity.
Defined.

Lemma getGeoByIp_lookup_rejects_witness :
  snd (getGeoByIp all_down "1.2.3.4" (JStr "f1") (world_of [blank_user 0 "f1"]))
  = Throw HttpError.
Proof.
  apply (getGeoByIp_lookup_rejects all_down "1.2.3.4" (JStr "f1")
           (world_of [blank_user 0 "f1"])).
  reflexivity.
Defined.

Lemma own_credentials_pass_witness :
  snd (checkCredentials (own_credentials (phone_user 0 "fA" "111"))
         (world_of [phone_user 0 "fA" "111"; phone_user 1 "fB" "222"]))
  = Ok false.
Proof.
  apply (own_credentials_pass (phone_user 0 "fA" "111")
           (world_of [phone_user 0 "fA" "111"; phone_user 1 "fB" "222"])).
  - constructor; [| repeat constructor].
    constructor; [no_share | constructor].
  - left. reflexivity.
Defined.

Lemma connected_counts_once_witness :
  exists before after,
    snd (getOnlineCounts (fun _ _ => ""%string) any_session None two_holders) = Ok before
    /\ snd (getOnlineCounts (fun _ _ => ""%string) any_session None
              (fst (connected 7 (mkConnectData "u1" "s9" app) two_holders)))
       = Ok after
    /\ count_for Platform_eqb app (byPlatform after)
       = count_for Platform_eqb app (byPlatform before) + 1
    /\ (forall p, p <> app ->
          count_for Platform_eqb p (byPlatform after)
          = count_for Platform_eqb p (byPlatform before)).
Proof.
  apply (connected_counts_once (fun _ _ => ""%string) any_session None 7
           (mkConnectData "u1" "s9" app) two_holders
           [with_sockets 0 "u0" [mkActiveSocket "s1" web 1; mkActiveSocket "s2" app 2]
              noPlatformOnline]
           (with_sockets 1 "u1" [mkActiveSocket "s1" app 3] noPlatformOnline) []).
  - discriminate.
  - discriminate.
  - reflexivity.
  - no_match.
  - reflexivity.
  - reflexivity.
Defined.

Lemma connect_disconnect_restores_breakdown_witness :
  exists before after u',
    snd (getOnlineCounts (fun _ _ => ""%string) any_session None two_holders) = Ok before
    /\ snd (getOnlineCounts (fun _ _ => ""%string) any_session None
              (fst (disconnected "s9"
                      (fst (connected 7 (mkConnectData "u1" "s9" app) two_holders)))))
       = Ok after
    /\ byPlatform after = byPlatform before
    /\ users (fst (disconnected "s9"
                     (fst (connected 7 (mkConnectData "u1" "s9" app) two_holders))))
       = [with_sockets 0 "u0" [mkActiveSocket "s1" web 1; mkActiveSocket "s2" app 2]
            noPlatformOnline] ++ u' :: []
    /\ online (User.platformOnline u') app = bumped None.
Proof.
  apply (connect_disconnect_restores_breakdown (fun _ _ => ""%string) any_session None 7
           (mkConnectData "u1" "s9" app) two_holders
           [with_sockets 0 "u0" [mkActiveSocket "s1" web 1; mkActiveSocket "s2" app 2]
              noPlatformOnline]
           (with_sockets 1 "u1" [mkActiveSocket "s1" app 3] noPlatformOnline) []).
  - discriminate.
  - discriminate.
  - reflexivity.
  - no_match.
  - reflexivity.
  - no_match.
  - reflexivity.
Defined.
